(** * The LLM agent decision loop of [puppy/agent.py]

    A shallow embedding of [LLMAgent]: its per-step entry point [step], the
    feedback reinforcement of [_update_access_counter], the derivation of
    actions in the two run modes, and the checkpoint pair
    [save_checkpoint] / [load_checkpoint].

    The collaborators of the agent (the memory store [BrainDB], the
    [Portfolio], the reasoning call [trading_reflection], the file system
    and [pickle]) are not part of [agent.py].  Every call to them is a node
    of a free monad; an interpreter runs a program against an arbitrary
    handler and records the calls with their answers.  The theorems
    quantify over all handlers, so they hold whatever the collaborators
    answer.  Calls are taken to return: an exception raised inside a
    collaborator is the collaborator's behaviour, not the agent's. *)

From Stdlib Require Import Ascii String QArith Qcanon.
From stdpp Require Import numbers gmap strings list fin_maps.

#[local] Set Warnings "-register-all".
#[local] Open Scope Z_scope.

(** ** Python values *)

(** The values the agent handles without knowing their shape
    ([Dict[str, Any]], payloads, memory identifiers).  Python compares
    numbers by value ([True == 1 == 1.0]), so a [bool], an [int] and a finite
    [float] are all a [VNum] over the canonical rationals; dictionaries have
    string keys and compare regardless of insertion order, which is the
    extensional equality of [gmap].  With this representation Python's [==]
    is equality of terms. *)
Inductive pyval : Type :=
| VNone
| VNum (q : Qc)
| VStr (s : string)
| VList (l : list pyval)
| VDict (d : gmap string pyval).

Fixpoint pyval_size (v : pyval) : nat :=
  match v with
  | VList l => S (foldr (fun x n => pyval_size x + n)%nat 0%nat l)
  | VDict d => S (map_fold (fun _ x n => pyval_size x + n)%nat 0%nat d)
  | _ => 1%nat
  end.

(** [a == b] *)
Fixpoint pyval_eqb (a b : pyval) : bool :=
  match a, b with
  | VNone, VNone => true
  | VNum x, VNum y => bool_decide (x = y)
  | VStr x, VStr y => bool_decide (x = y)
  | VList l1, VList l2 =>
      (fix go (l1 l2 : list pyval) : bool :=
         match l1, l2 with
         | [], [] => true
         | x :: xs, y :: ys => pyval_eqb x y && go xs ys
         | _, _ => false
         end) l1 l2
  | VDict d1, VDict d2 =>
      bool_decide (dom d1 = dom d2) &&
      map_fold (fun k v acc =>
                  match d2 !! k with
                  | Some v' => pyval_eqb v v'
                  | None => false
                  end && acc) true d1
  | _, _ => false
  end.

Lemma pyval_size_elem (x : pyval) (l : list pyval) :
  x ∈ l -> (pyval_size x < pyval_size (VList l))%nat.
Proof.
  induction 1 as [x l|x y l _ IH]; simpl in *; lia.
Qed.

Lemma pyval_size_lookup (d : gmap string pyval) (k : string) (v : pyval) :
  d !! k = Some v -> (pyval_size v < pyval_size (VDict d))%nat.
Proof.
  intros Hk. simpl.
  rewrite (map_fold_delete_L _ _ k v d); [lia| |exact Hk].
  intros; lia.
Qed.

Lemma all_fold_true {A} (f : string -> A -> bool) (d : gmap string A) :
  map_fold (fun k v acc => f k v && acc) true d = true <->
  (forall k v, d !! k = Some v -> f k v = true).
Proof.
  apply (map_fold_weak_ind
           (fun r m => r = true <-> forall k v, m !! k = Some v -> f k v = true)).
  - split; [intros _ k v Hk; by rewrite lookup_empty in Hk | done].
  - intros i x m r Hi IHm. rewrite andb_true_iff, IHm. split.
    + intros [Hx Hm] k v. rewrite lookup_insert.
      case_decide; [intros [= <-]; by subst | apply Hm].
    + intros H. split.
      * apply (H i). by rewrite lookup_insert_eq.
      * intros k v Hk. apply (H k). rewrite lookup_insert_ne; [done|].
        intros ->. congruence.
Qed.

Lemma pyval_eqb_eq_bounded (n : nat) :
  forall a b, (pyval_size a < n)%nat -> (pyval_eqb a b = true <-> a = b).
Proof.
  induction n as [|n IH]; [intros; lia|].
  intros a b Hn. destruct a as [|x|x|l1|d1], b as [|y|y|l2|d2]; simpl;
    try (split; [discriminate|congruence]); try done.
  - rewrite bool_decide_eq_true. split; congruence.
  - rewrite bool_decide_eq_true. split; congruence.
  - assert (Hl : forall x, x ∈ l1 -> forall y, pyval_eqb x y = true <-> x = y).
    { intros x Hx y. apply IH. apply pyval_size_elem in Hx. lia. }
    clear Hn. revert l2 Hl.
    induction l1 as [|x xs IHl]; intros [|y ys] Hl;
      try (split; [discriminate|congruence]); try done.
    rewrite andb_true_iff, (Hl x) by left.
    rewrite (IHl ys) by (intros; apply Hl; by right).
    split; [intros [-> [= ->]]; done | intros [= -> ->]; done].
  - rewrite andb_true_iff, bool_decide_eq_true, all_fold_true. split.
    + intros [Hdom Hall]. f_equal. apply map_eq. intros k.
      destruct (d1 !! k) as [v|] eqn:Hk.
      * specialize (Hall k v Hk). destruct (d2 !! k) as [v'|]; [|done].
        apply IH in Hall; [by subst|]. apply pyval_size_lookup in Hk. lia.
      * symmetry. apply not_elem_of_dom. rewrite <- Hdom.
        by apply not_elem_of_dom.
    + intros [= ->]. split; [done|]. intros k v Hk. rewrite Hk.
      apply IH; [|done]. apply pyval_size_lookup in Hk. lia.
Qed.

Lemma pyval_eqb_eq (a b : pyval) : pyval_eqb a b = true <-> a = b.
Proof. apply (pyval_eqb_eq_bounded (S (pyval_size a))). lia. Qed.

(** An [int] (or [bool]) as a value. *)
Definition VInt (z : Z) : pyval := VNum (Qc_of_Z z).

#[global] Instance pyval_eq_dec : EqDecision pyval.
Proof.
  intros a b. destruct (pyval_eqb a b) eqn:E.
  - left. by apply pyval_eqb_eq.
  - right. intros H. apply pyval_eqb_eq in H. congruence.
Defined.

(** ** Operations on Python values *)

Inductive exn : Type :=
| ValueError
| KeyError
| TypeError
| AttributeError
| FileExistsError.

(** What [f(...)] evaluates to: an exception or a value. *)
Definition result (A : Type) : Type := (exn + A)%type.

(** [bool(v)], the test of [if v:] and of [v and ...]. *)
Definition truthy (v : pyval) : bool :=
  match v with
  | VNone => false
  | VNum q => bool_decide (q ≠ 0%Qc)
  | VStr s => bool_decide (s ≠ EmptyString)
  | VList l => bool_decide (l ≠ [])
  | VDict d => bool_decide (d ≠ ∅)
  end.

(** [k in v] for a string [k]: key membership in a dictionary, element
    membership in a list, substring test in a string; [None] and integers
    are not iterable. *)
Definition py_contains (k : string) (v : pyval) : result bool :=
  match v with
  | VDict d => inr (bool_decide (is_Some (d !! k)))
  | VList l => inr (bool_decide (VStr k ∈ l))
  | VStr s => inr (match String.index 0 k s with Some _ => true | None => false end)
  | VNone | VNum _ => inl TypeError
  end.

(** [v[k]] for a string [k]: only a dictionary can be subscripted by a
    string, and a missing key is a [KeyError]. *)
Definition py_getitem (v : pyval) (k : string) : result pyval :=
  match v with
  | VDict d => match d !! k with Some x => inr x | None => inl KeyError end
  | _ => inl TypeError
  end.

(** [v.get(k)]: only dictionaries have the method. *)
Definition py_get (v : pyval) (k : string) : result pyval :=
  match v with
  | VDict d => inr (default VNone (d !! k))
  | _ => inl AttributeError
  end.

(** The elements [for i in v] visits: the items of a list, the keys of a
    dictionary, the characters of a string. *)
Definition py_iter (v : pyval) : result (list pyval) :=
  match v with
  | VList l => inr l
  | VDict d => inr (VStr <$> (map_to_list d).*1)
  | VStr s => inr ((fun c => VStr (String c EmptyString)) <$> String.list_ascii_of_string s)
  | VNone | VNum _ => inl TypeError
  end.

(** ** Dates, collaborators and their calls *)

(** [datetime.date] *)
Record date : Type := Date { year : Z; month : Z; day : Z }.

#[global] Instance date_eq_dec : EqDecision date.
Proof. solve_decision. Defined.

#[global] Instance date_countable : Countable date.
Proof.
  apply (inj_countable' (fun d => (year d, month d, day d))
                        (fun t => Date t.1.1 t.1.2 t.2)).
  by intros [].
Defined.

(** Collaborator objects.  The agent holds them and calls their methods;
    what is inside them belongs to the collaborator. *)
Inductive BrainDB : Type := BrainRef (id : nat).
Inductive Portfolio : Type := PortfolioRef (id : nat).
Inductive ChatEndPoint : Type := ChatEndPointRef (id : nat).
Inductive GuardrailEndpoint : Type := GuardrailRef (id : nat).

(** Modelled from the spec: [run_type.py] is not among the sources.  The
    run mode is either Train or Test; Python being dynamically typed, a
    caller can pass any other value, which is [NotARunMode]. *)
Inductive RunMode : Type :=
| Train
| Test
| NotARunMode (v : pyval).

(** What [Portfolio.get_feedback_response] answers when feedback is
    pending: [{"feedback": ..., "date": ...}]. *)
Record Feedback : Type := { feedback : Z; feedback_date : date }.

(** The eight values [__query_info_for_reflection] collects. *)
Record queried : Type := {
  cur_short_queried : list pyval;
  cur_short_memory_id : list pyval;
  cur_mid_queried : list pyval;
  cur_mid_memory_id : list pyval;
  cur_long_queried : list pyval;
  cur_long_memory_id : list pyval;
  cur_reflection_queried : list pyval;
  cur_reflection_memory_id : list pyval;
}.

(** The keyword argument that differs between the two calls of
    [trading_reflection]. *)
Inductive reflection_input : Type :=
| future_record (cur_record : option Qc)
| momentum (cur_moment : pyval).

(** The dictionary [save_checkpoint] pickles. *)
Record state_dict : Type := {
  sd_agent_name : string;
  sd_character_string : string;
  sd_top_k : Z;
  sd_counter : Z;
  sd_trading_symbol : string;
  sd_chat_end_point_name : string;
  sd_chat_end_point_config : pyval;
  sd_portfolio : Portfolio;
  sd_chat_end_point : ChatEndPoint;
  sd_reflection_result_series_dict : gmap date pyval;
  sd_access_counter : list (pyval * Z);
}.

Inductive call : Type :=
(* self.brain *)
| brain_add_memory_short (b : BrainDB) (symbol : string) (d : date) (text : pyval)
| brain_add_memory_mid (b : BrainDB) (symbol : string) (d : date) (text : pyval)
| brain_add_memory_long (b : BrainDB) (symbol : string) (d : date) (text : pyval)
| brain_add_memory_reflection (b : BrainDB) (symbol : string) (d : date) (text : pyval)
| brain_query_short (b : BrainDB) (query_text : string) (top_k : Z) (symbol : string)
| brain_query_mid (b : BrainDB) (query_text : string) (top_k : Z) (symbol : string)
| brain_query_long (b : BrainDB) (query_text : string) (top_k : Z) (symbol : string)
| brain_query_reflection (b : BrainDB) (query_text : string) (top_k : Z) (symbol : string)
| brain_update_access_count_with_feed_back
    (b : BrainDB) (symbol : string) (ids : list pyval) (fb : Z)
| brain_step (b : BrainDB)
| brain_save_checkpoint (b : BrainDB) (path : string) (force : bool)
| BrainDB_load_checkpoint (path : string)
(* self.portfolio *)
| Portfolio_init (symbol : string) (lookback_window_size : Z)
| portfolio_update_market_info (p : Portfolio) (new_market_price_info : Qc) (cur_date : date)
| portfolio_get_moment (p : Portfolio) (moment_window : Z)
| portfolio_record_action (p : Portfolio) (action : gmap string Z)
| portfolio_update_portfolio_series (p : Portfolio)
| portfolio_get_feedback_response (p : Portfolio)
(* the reasoning end point *)
| get_chat_end_points (end_point_type : string) (chat_config : pyval)
| chat_guardrail_endpoint (c : ChatEndPoint)
| trading_reflection
    (cur_date : date) (symbol : string) (run_mode : RunMode)
    (endpoint_func : GuardrailEndpoint) (memories : queried) (extra : reflection_input)
(* os, shutil, pickle *)
| os_path_exists (path : string)
| shutil_rmtree (path : string)
| os_mkdir (path : string)
| pickle_dump (path : string) (obj : state_dict)
| pickle_load (path : string).

(** The type of the answer of each call. *)
Definition result_of (c : call) : Type :=
  match c with
  | brain_query_short _ _ _ _ | brain_query_mid _ _ _ _
  | brain_query_long _ _ _ _ | brain_query_reflection _ _ _ _ =>
      (list pyval * list pyval)%type
  | BrainDB_load_checkpoint _ => BrainDB
  | Portfolio_init _ _ => Portfolio
  | portfolio_get_moment _ _ => pyval
  | portfolio_get_feedback_response _ => option Feedback
  | get_chat_end_points _ _ => ChatEndPoint
  | chat_guardrail_endpoint _ => GuardrailEndpoint
  | trading_reflection _ _ _ _ _ _ => pyval
  | os_path_exists _ => bool
  | pickle_load _ => state_dict
  | _ => unit
  end.

(** ** Programs over the collaborators *)

(** A program is a tree of collaborator calls: each node names the call and
    continues with its answer. *)
Inductive prog (A : Type) : Type :=
| Ret (a : A)
| Call (c : call) (k : result_of c -> prog A).
Arguments Ret {A} a.
Arguments Call {A} c k.

Fixpoint pbind {A B} (p : prog A) (f : A -> prog B) : prog B :=
  match p with
  | Ret a => f a
  | Call c k => Call c (fun r => pbind (k r) f)
  end.

(** ** The agent *)

Record LLMAgent : Type := {
  counter : Z;
  top_k : Z;
  agent_name : string;
  trading_symbol : string;
  character_string : string;
  chat_end_point_name : string;
  chat_end_point_config : pyval;
  look_back_window_size : Z;
  brain : BrainDB;
  portfolio : Portfolio;
  chat_end_point : ChatEndPoint;
  guardrail_endpoint : GuardrailEndpoint;
  reflection_result_series_dict : gmap date pyval;
  access_counter : list (pyval * Z);
}.

(** A method of the agent: it runs on [self], calls collaborators, and ends
    with an exception or a value; what it assigned to attributes of [self]
    stays assigned when it raises. *)
Definition M (A : Type) : Type := LLMAgent -> prog (result A * LLMAgent).

Definition ret {A} (a : A) : M A := fun self => Ret (inr a, self).
Definition raise {A} (e : exn) : M A := fun self => Ret (inl e, self).
Definition lift {A} (r : result A) : M A := fun self => Ret (r, self).
Definition bind {A B} (m : M A) (f : A -> M B) : M B :=
  fun self =>
    pbind (m self) (fun x =>
      match x.1 with
      | inl e => Ret (inl e, x.2)
      | inr a => f a x.2
      end).
Definition invoke (c : call) : M (result_of c) :=
  fun self => Call c (fun r => Ret (inr r, self)).
Definition get_self : M LLMAgent := fun self => Ret (inr self, self).
Definition put_self (self' : LLMAgent) : M unit := fun _ => Ret (inr tt, self').

#[global] Arguments ret : simpl never.
#[global] Arguments raise : simpl never.
#[global] Arguments lift : simpl never.
#[global] Arguments bind : simpl never.
#[global] Arguments invoke : simpl never.
#[global] Arguments get_self : simpl never.
#[global] Arguments put_self : simpl never.

Notation "'let*' x ':=' m 'in' k" := (bind m (fun x => k))
  (at level 10, x pattern, m at level 100, k at level 200).
Notation "m ';;' k" := (bind m (fun _ => k))
  (at level 100, k at level 200, right associativity).

Definition res_bind {A B} (r : result A) (f : A -> result B) : result B :=
  match r with
  | inl e => inl e
  | inr a => f a
  end.

Definition default_top_k : Z := 1.
Definition default_chat_end_point_name : string := "openai".
Definition default_look_back_window_size : Z := 7.
Definition default_chat_end_point_config : pyval :=
  VDict {[ "model_name" := VStr "gpt-4"; "temperature" := VNum (Q2Qc (7 # 10)) ]}.

(** [LLMAgent.__init__]; a parameter left out by the caller is passed as
    its default above ([None] for [chat_end_point_config]). *)
Definition __init__
    (agent_name trading_symbol character_string : string) (brain_db : BrainDB)
    (top_k : Z) (chat_end_point_name : string) (chat_end_point_config : pyval)
    (look_back_window_size : Z) : prog LLMAgent :=
  let chat_end_point_config :=
    if bool_decide (chat_end_point_config = VNone)
    then default_chat_end_point_config
    else chat_end_point_config in
  Call (Portfolio_init trading_symbol look_back_window_size) (fun portfolio =>
  Call (get_chat_end_points chat_end_point_name chat_end_point_config) (fun chat_end_point =>
  Call (chat_guardrail_endpoint chat_end_point) (fun guardrail_endpoint =>
  Ret {| counter := 1;
         top_k := top_k;
         agent_name := agent_name;
         trading_symbol := trading_symbol;
         character_string := character_string;
         chat_end_point_name := chat_end_point_name;
         chat_end_point_config := chat_end_point_config;
         look_back_window_size := look_back_window_size;
         brain := brain_db;
         portfolio := portfolio;
         chat_end_point := chat_end_point;
         guardrail_endpoint := guardrail_endpoint;
         reflection_result_series_dict := ∅;
         access_counter := [] |}))).

(** [self.reflection_result_series_dict[cur_date] = r] *)
Definition set_reflection_result (cur_date : date) (r : pyval) (self : LLMAgent) : LLMAgent :=
  {| counter := counter self;
     top_k := top_k self;
     agent_name := agent_name self;
     trading_symbol := trading_symbol self;
     character_string := character_string self;
     chat_end_point_name := chat_end_point_name self;
     chat_end_point_config := chat_end_point_config self;
     look_back_window_size := look_back_window_size self;
     brain := brain self;
     portfolio := portfolio self;
     chat_end_point := chat_end_point self;
     guardrail_endpoint := guardrail_endpoint self;
     reflection_result_series_dict := <[cur_date := r]> (reflection_result_series_dict self);
     access_counter := access_counter self |}.

Definition _handling_filings (cur_date : date) (filing_q filing_k : pyval) : M unit :=
  let* self := get_self in
  (if bool_decide (filing_q ≠ VDict ∅) then
     invoke (brain_add_memory_mid (brain self) (trading_symbol self) cur_date filing_q)
   else ret tt) ;;
  if bool_decide (filing_k ≠ VDict ∅) then
    invoke (brain_add_memory_long (brain self) (trading_symbol self) cur_date filing_k)
  else ret tt.

Definition _handling_news (cur_date : date) (news : pyval) : M unit :=
  let* self := get_self in
  if bool_decide (news ≠ VDict ∅) then
    invoke (brain_add_memory_short (brain self) (trading_symbol self) cur_date news)
  else ret tt.

(** The tuple has eight values, and a ninth ([cur_moment]) in Test mode
    only.  The log lines iterate over the lists the queries answered and
    evaluate nothing that can raise. *)
Definition __query_info_for_reflection (run_mode : RunMode) : M (queried * option pyval) :=
  let* self := get_self in
  let* short := invoke (brain_query_short (brain self) (character_string self)
                                          (top_k self) (trading_symbol self)) in
  let* mid := invoke (brain_query_mid (brain self) (character_string self)
                                      (top_k self) (trading_symbol self)) in
  let* long := invoke (brain_query_long (brain self) (character_string self)
                                        (top_k self) (trading_symbol self)) in
  let* refl := invoke (brain_query_reflection (brain self) (character_string self)
                                              (top_k self) (trading_symbol self)) in
  let memories :=
    {| cur_short_queried := short.1; cur_short_memory_id := short.2;
       cur_mid_queried := mid.1; cur_mid_memory_id := mid.2;
       cur_long_queried := long.1; cur_long_memory_id := long.2;
       cur_reflection_queried := refl.1; cur_reflection_memory_id := refl.2 |} in
  match run_mode with
  | Test =>
      let* cur_moment_ret := invoke (portfolio_get_moment (portfolio self) 2) in
      let* cur_moment :=
        (if bool_decide (cur_moment_ret ≠ VNone)
         then lift (py_getitem cur_moment_ret "moment")
         else ret VNone) in
      ret (memories, Some cur_moment)
  | _ => ret (memories, None)
  end.

(** Unpacking the tuple into eight names (Train) or nine (otherwise) is a
    [ValueError] when the length differs. *)
Definition __reflection_on_record
    (cur_date : date) (run_mode : RunMode) (cur_record : option Qc) : M pyval :=
  let* self := get_self in
  let* info := __query_info_for_reflection run_mode in
  let* reflection_result :=
    match run_mode, info.2 with
    | Train, None =>
        invoke (trading_reflection cur_date (trading_symbol self) run_mode
                  (guardrail_endpoint self) info.1 (future_record cur_record))
    | Train, Some _ => raise ValueError
    | _, Some cur_moment =>
        invoke (trading_reflection cur_date (trading_symbol self) run_mode
                  (guardrail_endpoint self) info.1 (momentum cur_moment))
    | _, None => raise ValueError
    end in
  (if truthy reflection_result then
     let* has_reason := lift (py_contains "summary_reason" reflection_result) in
     if has_reason : bool then
       let* text := lift (py_getitem reflection_result "summary_reason") in
       invoke (brain_add_memory_reflection (brain self) (trading_symbol self) cur_date text)
     else ret tt
   else ret tt) ;;
  ret reflection_result.

(** The log lines are kept for what they evaluate: [.get] and the
    subscript of the decision can raise. *)
Definition _reflect (cur_date : date) (run_mode : RunMode) (cur_record : option Qc) : M unit :=
  let* reflection_result_cur_date := __reflection_on_record cur_date run_mode cur_record in
  let* self := get_self in
  put_self (set_reflection_result cur_date reflection_result_cur_date self) ;;
  match run_mode with
  | Train =>
      let* _ := lift (py_get reflection_result_cur_date "summary_reason") in ret tt
  | Test =>
      if truthy reflection_result_cur_date then
        let* _ := lift (py_getitem reflection_result_cur_date "investment_decision") in
        let* _ := lift (py_get reflection_result_cur_date "summary_reason") in
        ret tt
      else ret tt
  | NotARunMode _ => ret tt
  end.

(** [cur_record > 0] on [None] is a [TypeError]. *)
Definition _construct_train_actions (cur_record : option Qc) : result (gmap string Z) :=
  match cur_record with
  | None => inl TypeError
  | Some r =>
      let cur_direction := if bool_decide (0 < r)%Qc then 1 else -1 in
      inr {[ "direction" := cur_direction; "quantity" := 1 ]}
  end.

Definition _portfolio_step (cur_actions : gmap string Z) : M unit :=
  let* self := get_self in
  invoke (portfolio_record_action (portfolio self) cur_actions) ;;
  invoke (portfolio_update_portfolio_series (portfolio self)).

(** The loop of [__update_access_counter_sub]: [cur_ids] collects the
    ["memory_index"] of every item, once. *)
Fixpoint collect_cur_ids (items : list pyval) (cur_ids : list pyval) : result (list pyval) :=
  match items with
  | [] => inr cur_ids
  | i :: items' =>
      res_bind (py_getitem i "memory_index") (fun cur_id =>
        collect_cur_ids items'
          (if bool_decide (cur_id ∉ cur_ids) then cur_ids ++ [cur_id] else cur_ids))
  end.

Definition __update_access_counter_sub
    (cur_memory : pyval) (layer_index_name : string) (fb : Feedback) : M unit :=
  let* self := get_self in
  let* layer := lift (py_getitem cur_memory layer_index_name) in
  let* items := lift (py_iter layer) in
  let* cur_ids := lift (collect_cur_ids items []) in
  invoke (brain_update_access_count_with_feed_back
            (brain self) (trading_symbol self) cur_ids (feedback fb)).

Definition __update_short_memory_access_counter (fb : Feedback) (cur_memory : pyval) : M unit :=
  let* present := lift (py_contains "short_memory_index" cur_memory) in
  if present : bool then __update_access_counter_sub cur_memory "short_memory_index" fb
  else ret tt.

Definition __update_mid_memory_access_counter (fb : Feedback) (cur_memory : pyval) : M unit :=
  let* present := lift (py_contains "middle_memory_index" cur_memory) in
  if present : bool then __update_access_counter_sub cur_memory "middle_memory_index" fb
  else ret tt.

Definition __update_long_memory_access_counter (fb : Feedback) (cur_memory : pyval) : M unit :=
  let* present := lift (py_contains "long_memory_index" cur_memory) in
  if present : bool then __update_access_counter_sub cur_memory "long_memory_index" fb
  else ret tt.

Definition __update_reflection_memory_access_counter
    (fb : Feedback) (cur_memory : pyval) : M unit :=
  let* present := lift (py_contains "reflection_memory_index" cur_memory) in
  if present : bool then __update_access_counter_sub cur_memory "reflection_memory_index" fb
  else ret tt.

(** [test_reflection_result and test_reflection_result["investment_decision"] == label] *)
Definition decision_is (test_reflection_result : pyval) (label : string) : result bool :=
  if truthy test_reflection_result then
    res_bind (py_getitem test_reflection_result "investment_decision") (fun decision =>
      inr (bool_decide (decision = VStr label)))
  else inr false.

Definition __process_test_action (test_reflection_result : pyval) : result (gmap string Z) :=
  res_bind (decision_is test_reflection_result "buy") (fun buy =>
    if buy : bool then inr {[ "direction" := 1 ]} else
    res_bind (decision_is test_reflection_result "hold") (fun hold =>
      if hold : bool then inr {[ "direction" := 0 ]} else
      res_bind (decision_is test_reflection_result "sell") (fun sell =>
        if sell : bool then inr {[ "direction" := -1 ]} else
        inr {[ "direction" := 0 ]}))).

Definition _update_access_counter : M unit :=
  let* self := get_self in
  let* response := invoke (portfolio_get_feedback_response (portfolio self)) in
  match response with
  | None => ret tt
  | Some fb =>
      if bool_decide (feedback fb ≠ 0) then
        let cur_date := feedback_date fb in
        let* self := get_self in
        match reflection_result_series_dict self !! cur_date with
        | None => raise KeyError
        | Some cur_memory =>
            __update_short_memory_access_counter fb cur_memory ;;
            __update_mid_memory_access_counter fb cur_memory ;;
            __update_long_memory_access_counter fb cur_memory ;;
            __update_reflection_memory_access_counter fb cur_memory
        end
      else ret tt
  end.

(** [(cur_date, cur_price, filing_k, filing_q, news, cur_record, done)] *)
Definition market_info_type : Type :=
  (date * Qc * pyval * pyval * pyval * option Qc * bool)%type.

Definition step (market_info : market_info_type) (run_mode : RunMode) : M unit :=
  match run_mode with
  | NotARunMode _ => raise ValueError
  | _ =>
      let '(cur_date, cur_price, cur_filing_k, cur_filing_q, cur_news, cur_record, done) :=
        market_info in
      if done : bool then ret tt else
      (* 1. handle fundamental/protocol docs *)
      _handling_filings cur_date cur_filing_q cur_filing_k ;;
      (* 2. handle news *)
      _handling_news cur_date cur_news ;;
      (* 3. update portfolio with new price *)
      (let* self := get_self in
       invoke (portfolio_update_market_info (portfolio self) cur_price cur_date)) ;;
      (* 4. reflection *)
      _reflect cur_date run_mode cur_record ;;
      (* 5. decide action *)
      let* cur_action :=
        match run_mode with
        | Train => lift (_construct_train_actions cur_record)
        | _ =>
            let* self := get_self in
            match reflection_result_series_dict self !! cur_date with
            | None => raise KeyError
            | Some test_reflection_result => lift (__process_test_action test_reflection_result)
            end
        end in
      (* 6. portfolio step *)
      _portfolio_step cur_action ;;
      (* 7. memory access counter *)
      _update_access_counter ;;
      (* 8. memory step (decay / clean up / jump) *)
      let* self := get_self in
      invoke (brain_step (brain self))
  end.

(** ** Checkpoints *)

(** [os.path.join] of two components on a POSIX system. *)
Definition os_path_join (a b : string) : string :=
  match b with
  | String "/" _ => b
  | _ =>
      if bool_decide (a = EmptyString) then b
      else match String.get (String.length a - 1) a with
           | Some "/"%char => a +:+ b
           | _ => a +:+ "/" +:+ b
           end
  end.

Definition make_state_dict (self : LLMAgent) : state_dict :=
  {| sd_agent_name := agent_name self;
     sd_character_string := character_string self;
     sd_top_k := top_k self;
     sd_counter := counter self;
     sd_trading_symbol := trading_symbol self;
     sd_chat_end_point_name := chat_end_point_name self;
     sd_chat_end_point_config := chat_end_point_config self;
     sd_portfolio := portfolio self;
     sd_chat_end_point := chat_end_point self;
     sd_reflection_result_series_dict := reflection_result_series_dict self;
     sd_access_counter := access_counter self |}.

Definition save_checkpoint (path : string) (force : bool) : M unit :=
  let* self := get_self in
  let path := os_path_join path (agent_name self) in
  let* present := invoke (os_path_exists path) in
  (if present : bool then
     if force then invoke (shutil_rmtree path) else raise FileExistsError
   else ret tt) ;;
  invoke (os_mkdir path) ;;
  invoke (os_mkdir (os_path_join path "brain")) ;;
  let state_dict := make_state_dict self in
  invoke (pickle_dump (os_path_join path "state_dict.pkl") state_dict) ;;
  invoke (brain_save_checkpoint (brain self) (os_path_join path "brain") force).

(** The attributes [load_checkpoint] assigns after construction. *)
Definition overlay (state_dict : state_dict) (class_obj : LLMAgent) : LLMAgent :=
  {| counter := sd_counter state_dict;
     top_k := top_k class_obj;
     agent_name := agent_name class_obj;
     trading_symbol := trading_symbol class_obj;
     character_string := character_string class_obj;
     chat_end_point_name := chat_end_point_name class_obj;
     chat_end_point_config := chat_end_point_config class_obj;
     look_back_window_size := look_back_window_size class_obj;
     brain := brain class_obj;
     portfolio := sd_portfolio state_dict;
     chat_end_point := sd_chat_end_point state_dict;
     guardrail_endpoint := guardrail_endpoint class_obj;
     reflection_result_series_dict := sd_reflection_result_series_dict state_dict;
     access_counter := sd_access_counter state_dict |}.

(** A class method: there is no [self] before it returns one.  The
    constructor is called without [look_back_window_size]. *)
Definition load_checkpoint (path : string) : prog LLMAgent :=
  Call (pickle_load (os_path_join path "state_dict.pkl")) (fun state_dict =>
  Call (BrainDB_load_checkpoint (os_path_join path "brain")) (fun brain =>
  pbind (__init__ (sd_agent_name state_dict) (sd_trading_symbol state_dict)
                  (sd_character_string state_dict) brain (sd_top_k state_dict)
                  (sd_chat_end_point_name state_dict)
                  (sd_chat_end_point_config state_dict)
                  default_look_back_window_size)
        (fun class_obj => Ret (overlay state_dict class_obj)))).

(** ** Running a program *)

(** A collaborator call together with its answer. *)
Inductive event : Type := Ev (c : call) (r : result_of c).

(** The collaborators, with some state [W] of their own, answer each
    call. *)
Definition handler (W : Type) : Type := forall c : call, W -> result_of c * W.

Fixpoint run {W A} (h : handler W) (p : prog A) (w : W) : A * W * list event :=
  match p with
  | Ret a => (a, w, [])
  | Call c k =>
      let rw := h c w in
      let out := run h (k rw.1) rw.2 in
      (out.1, Ev c rw.1 :: out.2)
  end.

(** ** What a run shows *)

Inductive tier : Type := Short | Mid | Long | Reflection.

(** The key under which a reflection result lists the memories of a tier. *)
Definition layer_index_name (t : tier) : string :=
  match t with
  | Short => "short_memory_index"
  | Mid => "middle_memory_index"
  | Long => "long_memory_index"
  | Reflection => "reflection_memory_index"
  end.

Definition all_tiers : list tier := [Short; Mid; Long; Reflection].

(** The calls that change a collaborator or answer what the agent acts on,
    with the answer where there is one.  Queries and the momentum request
    are left out. *)
Inductive observation : Type :=
| Added (t : tier) (b : BrainDB) (symbol : string) (d : date) (text : pyval)
| Reflected (run_mode : RunMode) (extra : reflection_input) (answer : pyval)
| MarketUpdated (p : Portfolio) (price : Qc) (d : date)
| Acted (p : Portfolio) (action : gmap string Z)
| SeriesUpdated (p : Portfolio)
| FeedbackAnswered (answer : option Feedback)
| Reinforced (b : BrainDB) (symbol : string) (ids : list pyval) (fb : Z)
| Maintained (b : BrainDB).

Definition observe_event (e : event) : option observation :=
  match e with
  | Ev c r =>
      match c return result_of c -> option observation with
      | brain_add_memory_short b s d x => fun _ => Some (Added Short b s d x)
      | brain_add_memory_mid b s d x => fun _ => Some (Added Mid b s d x)
      | brain_add_memory_long b s d x => fun _ => Some (Added Long b s d x)
      | brain_add_memory_reflection b s d x => fun _ => Some (Added Reflection b s d x)
      | trading_reflection _ _ m _ _ x => fun r => Some (Reflected m x r)
      | portfolio_update_market_info p x d => fun _ => Some (MarketUpdated p x d)
      | portfolio_record_action p a => fun _ => Some (Acted p a)
      | portfolio_update_portfolio_series p => fun _ => Some (SeriesUpdated p)
      | portfolio_get_feedback_response _ => fun r => Some (FeedbackAnswered r)
      | brain_update_access_count_with_feed_back b s ids fb =>
          fun _ => Some (Reinforced b s ids fb)
      | brain_step b => fun _ => Some (Maintained b)
      | _ => fun _ => None
      end r
  end.

Definition observe (tr : list event) : list observation := omap observe_event tr.

(** The reinforcement calls of a run: identifiers and magnitude. *)
Definition reinforcements (obs : list observation) : list (list pyval * Z) :=
  omap (fun o => match o with Reinforced _ _ ids fb => Some (ids, fb) | _ => None end) obs.

(** The answers of [get_feedback_response] in a run. *)
Definition feedback_answers (obs : list observation) : list (option Feedback) :=
  omap (fun o => match o with FeedbackAnswered r => Some r | _ => None end) obs.

(** The actions recorded on the portfolio. *)
Definition actions (obs : list observation) : list (gmap string Z) :=
  omap (fun o => match o with Acted _ a => Some a | _ => None end) obs.

(** The answers of the reasoning call. *)
Definition reflection_answers (obs : list observation) : list pyval :=
  omap (fun o => match o with Reflected _ _ r => Some r | _ => None end) obs.

(** The payloads written to the Short, Mid and Long tiers. *)
Definition document_writes (obs : list observation) : list (tier * string * date * pyval) :=
  omap (fun o => match o with
                 | Added Reflection _ _ _ _ => None
                 | Added t _ s d x => Some (t, s, d, x)
                 | _ => None
                 end) obs.

(** The maintenance calls. *)
Definition maintenance (obs : list observation) : list BrainDB :=
  omap (fun o => match o with Maintained b => Some b | _ => None end) obs.

(** ** A collaborator for examples

    Answers are scripted; pickled files are kept in memory. *)
Record world : Type := {
  w_reflection : pyval;
  w_feedback : option Feedback;
  w_moment : pyval;
  w_paths : list string;
  w_pickles : list (string * state_dict);
}.

Definition empty_state_dict : state_dict :=
  {| sd_agent_name := ""; sd_character_string := ""; sd_top_k := 0; sd_counter := 0;
     sd_trading_symbol := ""; sd_chat_end_point_name := "";
     sd_chat_end_point_config := VNone;
     sd_portfolio := PortfolioRef 0; sd_chat_end_point := ChatEndPointRef 0;
     sd_reflection_result_series_dict := ∅; sd_access_counter := [] |}.

Definition with_paths (paths : list string) (w : world) : world :=
  {| w_reflection := w_reflection w; w_feedback := w_feedback w; w_moment := w_moment w;
     w_paths := paths; w_pickles := w_pickles w |}.

Definition with_pickles (pickles : list (string * state_dict)) (w : world) : world :=
  {| w_reflection := w_reflection w; w_feedback := w_feedback w; w_moment := w_moment w;
     w_paths := w_paths w; w_pickles := pickles |}.

Definition lookup_pickle (path : string) (w : world) : state_dict :=
  match List.find (fun x => bool_decide (x.1 = path)) (w_pickles w) with
  | Some x => x.2
  | None => empty_state_dict
  end.

Definition scripted : handler world :=
  fun c w =>
    match c return result_of c * world with
    | brain_query_short _ _ _ _ | brain_query_mid _ _ _ _
    | brain_query_long _ _ _ _ | brain_query_reflection _ _ _ _ => (([], []), w)
    | BrainDB_load_checkpoint _ => (BrainRef 1, w)
    | Portfolio_init _ _ => (PortfolioRef 1, w)
    | portfolio_get_moment _ _ => (w_moment w, w)
    | portfolio_get_feedback_response _ => (w_feedback w, w)
    | get_chat_end_points _ _ => (ChatEndPointRef 1, w)
    | chat_guardrail_endpoint _ => (GuardrailRef 1, w)
    | trading_reflection _ _ _ _ _ _ => (w_reflection w, w)
    | os_path_exists path => (bool_decide (path ∈ w_paths w), w)
    | os_mkdir path => (tt, with_paths (path :: w_paths w) w)
    | shutil_rmtree path =>
        (tt, with_paths (List.filter (fun x => negb (String.prefix path x)) (w_paths w))
               (with_pickles
                  (List.filter (fun x => negb (String.prefix path x.1)) (w_pickles w)) w))
    | pickle_dump path obj => (tt, with_pickles ((path, obj) :: w_pickles w) w)
    | pickle_load path => (lookup_pickle path w, w)
    | _ => (tt, w)
    end.

(** ** Views used by the statements *)

(** The identifiers [__update_access_counter_sub] sends for a tier, [None]
    when the key of the tier is not in the record. *)
Definition tier_ids (cur_memory : pyval) (t : tier) : result (option (list pyval)) :=
  res_bind (py_contains (layer_index_name t) cur_memory) (fun present =>
    if present : bool then
      res_bind (py_getitem cur_memory (layer_index_name t)) (fun layer =>
      res_bind (py_iter layer) (fun items =>
      res_bind (collect_cur_ids items []) (fun cur_ids => inr (Some cur_ids))))
    else inr None).

(** The method of [LLMAgent] that reinforces tier [t]. *)
Definition update_tier (t : tier) : Feedback -> pyval -> M unit :=
  match t with
  | Short => __update_short_memory_access_counter
  | Mid => __update_mid_memory_access_counter
  | Long => __update_long_memory_access_counter
  | Reflection => __update_reflection_memory_access_counter
  end.

(** Going through the tiers in order: the identifier lists sent, until a
    tier raises. *)
Fixpoint reinforce_tiers (cur_memory : pyval) (ts : list tier) : result unit * list (list pyval) :=
  match ts with
  | [] => (inr tt, [])
  | t :: ts' =>
      match tier_ids cur_memory t with
      | inl e => (inl e, [])
      | inr None => reinforce_tiers cur_memory ts'
      | inr (Some ids) =>
          let rest := reinforce_tiers cur_memory ts' in
          (rest.1, ids :: rest.2)
      end
  end.

(** What consuming the answer of [get_feedback_response] does. *)
Definition consume_feedback (self : LLMAgent) (answer : option Feedback)
  : result unit * list (list pyval) :=
  match answer with
  | None => (inr tt, [])
  | Some fb =>
      if bool_decide (feedback fb ≠ 0) then
        match reflection_result_series_dict self !! feedback_date fb with
        | None => (inl KeyError, [])
        | Some cur_memory => reinforce_tiers cur_memory all_tiers
        end
      else (inr tt, [])
  end.

(** The reinforcement call of the agent for the identifiers [ids]. *)
Definition reinforced_with (self : LLMAgent) (fb : Z) (ids : list pyval) : observation :=
  Reinforced (brain self) (trading_symbol self) ids fb.

(** The magnitude of the answer, 0 when nothing is pending. *)
Definition magnitude (answer : option Feedback) : Z :=
  match answer with
  | Some fb => feedback fb
  | None => 0
  end.

(** The writes of [_handling_filings] and [_handling_news] and the market
    update that follows them. *)
Definition ingest_observations (self : LLMAgent) (cur_date : date) (cur_price : Qc)
    (filing_k filing_q news : pyval) : list observation :=
  (if bool_decide (filing_q ≠ VDict ∅)
   then [Added Mid (brain self) (trading_symbol self) cur_date filing_q] else []) ++
  (if bool_decide (filing_k ≠ VDict ∅)
   then [Added Long (brain self) (trading_symbol self) cur_date filing_k] else []) ++
  (if bool_decide (news ≠ VDict ∅)
   then [Added Short (brain self) (trading_symbol self) cur_date news] else []) ++
  [MarketUpdated (portfolio self) cur_price cur_date].

(** What the log lines at the end of [_reflect] evaluate. *)
Definition log_outcome (run_mode : RunMode) (r : pyval) : result unit :=
  match run_mode with
  | Train => res_bind (py_get r "summary_reason") (fun _ => inr tt)
  | Test =>
      if truthy r then
        res_bind (py_getitem r "investment_decision") (fun _ =>
        res_bind (py_get r "summary_reason") (fun _ => inr tt))
      else inr tt
  | NotARunMode _ => inr tt
  end.

(** The ways [_reflect] can end: before the reasoning call answered (the
    momentum could not be read), between the answer and the assignment to
    [reflection_result_series_dict] (the answer is neither empty nor a
    dictionary), or after the assignment. *)
Inductive reflect_spec (run_mode : RunMode) (cur_date : date) (self : LLMAgent)
  : result unit -> LLMAgent -> list observation -> Prop :=
| reflect_unanswered (e : exn) :
    reflect_spec run_mode cur_date self (inl e) self []
| reflect_unstored (x : reflection_input) (r : pyval) (e : exn) :
    truthy r = true ->
    (forall d, r ≠ VDict d) ->
    reflect_spec run_mode cur_date self (inl e) self [Reflected run_mode x r]
| reflect_stored (x : reflection_input) (r : pyval) (adds : list observation) :
    adds = [] \/
    (exists text, adds = [Added Reflection (brain self) (trading_symbol self) cur_date text]) ->
    reflect_spec run_mode cur_date self
      (log_outcome run_mode r)
      (set_reflection_result cur_date r self)
      (Reflected run_mode x r :: adds).

(** The action of phase 5. *)
Definition decide_action (run_mode : RunMode) (cur_date : date) (cur_record : option Qc)
    (self : LLMAgent) : result (gmap string Z) :=
  match run_mode with
  | Train => _construct_train_actions cur_record
  | _ =>
      match reflection_result_series_dict self !! cur_date with
      | None => inl KeyError
      | Some test_reflection_result => __process_test_action test_reflection_result
      end
  end.

(** Phases 6 to 8 once the action is known and feedback answered. *)
Definition act_observations (self : LLMAgent) (action : gmap string Z)
    (answer : option Feedback) : list observation :=
  [Acted (portfolio self) action; SeriesUpdated (portfolio self)] ++
  FeedbackAnswered answer ::
  (reinforced_with self (magnitude answer) <$> (consume_feedback self answer).2) ++
  (match (consume_feedback self answer).1 with
   | inr _ => [Maintained (brain self)]
   | inl _ => []
   end).

(** The ways a step that is not done can end, in a valid run mode. *)
Inductive step_spec (self : LLMAgent) (cur_date : date) (cur_price : Qc)
    (filing_k filing_q news : pyval) (cur_record : option Qc) (run_mode : RunMode)
  : result unit -> LLMAgent -> list observation -> Prop :=
| step_stops_reflecting (e : exn) (self' : LLMAgent) (obs : list observation) :
    reflect_spec run_mode cur_date self (inl e) self' obs ->
    step_spec self cur_date cur_price filing_k filing_q news cur_record run_mode
      (inl e) self'
      (ingest_observations self cur_date cur_price filing_k filing_q news ++ obs)
| step_stops_deciding (e : exn) (self' : LLMAgent) (obs : list observation) :
    reflect_spec run_mode cur_date self (inr tt) self' obs ->
    decide_action run_mode cur_date cur_record self' = inl e ->
    step_spec self cur_date cur_price filing_k filing_q news cur_record run_mode
      (inl e) self'
      (ingest_observations self cur_date cur_price filing_k filing_q news ++ obs)
| step_acts (self' : LLMAgent) (obs : list observation) (action : gmap string Z)
    (answer : option Feedback) :
    reflect_spec run_mode cur_date self (inr tt) self' obs ->
    decide_action run_mode cur_date cur_record self' = inr action ->
    step_spec self cur_date cur_price filing_k filing_q news cur_record run_mode
      (consume_feedback self' answer).1 self'
      (ingest_observations self cur_date cur_price filing_k filing_q news ++ obs ++
       act_observations self' action answer).

(** ** Concrete inputs *)

Module Examples.
Definition agent0 : LLMAgent :=
  {| counter := 1; top_k := 5; agent_name := "agent"; trading_symbol := "TSLA";
     character_string := "persona"; chat_end_point_name := "openai";
     chat_end_point_config := default_chat_end_point_config;
     look_back_window_size := 10;
     brain := BrainRef 0; portfolio := PortfolioRef 0;
     chat_end_point := ChatEndPointRef 0; guardrail_endpoint := GuardrailRef 0;
     reflection_result_series_dict := ∅; access_counter := [] |}.

Definition day1 : date := Date 2024 1 2.
Definition day2 : date := Date 2024 1 3.

(** Collaborators that answer the reasoning call with [r] and the
    feedback request with [fb]. *)
Definition answering (r : pyval) (fb : option Feedback) : world :=
  {| w_reflection := r; w_feedback := fb; w_moment := VNone;
     w_paths := []; w_pickles := [] |}.

(** No documents, one news item, a realized outcome of one half. *)
Definition news_only (d : date) (done : bool) : market_info_type :=
  (d, 1%Qc, VDict ∅, VDict ∅, VList [VStr "rate hike"], Some (Q2Qc (1 # 2)), done).

Definition entry (id : Z) : pyval := VDict {[ "memory_index" := VInt id ]}.

(** A reflection result that decided to buy and consulted the Short
    memories 1, 2 and 1 again. *)
Definition bought : pyval :=
  VDict {[ "investment_decision" := VStr "buy";
           "short_memory_index" := VList [entry 1; entry 2; entry 1] ]}.
End Examples.

(** ** Notions of the claims *)

(** The direction a decision label stands for: buy is 1, sell is -1, hold
    and every other label is 0. *)
Definition direction_of_label (label : pyval) : Z :=
  if bool_decide (label = VStr "buy") then 1
  else if bool_decide (label = VStr "sell") then -1
  else 0.

(** The identifiers a record lists for a tier: the ["memory_index"] of each
    entry under the key of the tier, in order, repetitions included. *)
Definition recorded_ids (cur_memory : pyval) (t : tier) (ids : list pyval) : Prop :=
  exists layer items,
    py_getitem cur_memory (layer_index_name t) = inr layer /\
    py_iter layer = inr items /\
    Forall2 (fun i id => py_getitem i "memory_index" = inr id) items ids.

(** [sent] has the members of [recorded], each once. *)
Definition deduplicated (recorded sent : list pyval) : Prop :=
  NoDup sent /\ forall x, x ∈ sent <-> x ∈ recorded.

(** The dictionaries pickled in a run, with their paths. *)
Definition pickled (tr : list event) : list (string * state_dict) :=
  omap (fun e => match e with
                 | Ev (pickle_dump path obj) _ => Some (path, obj)
                 | _ => None
                 end) tr.

(** The dictionaries unpickled in a run, with their paths. *)
Definition unpickled (tr : list event) : list (string * state_dict) :=
  omap (fun e => match e with
                 | Ev c r =>
                     match c return result_of c -> option (string * state_dict) with
                     | pickle_load path => fun obj => Some (path, obj)
                     | _ => fun _ => None
                     end r
                 end) tr.

(** The record has no key for the tier. *)
Definition tier_absent (cur_memory : pyval) (t : tier) : Prop :=
  py_contains (layer_index_name t) cur_memory = inr false.

(** The record lists entries with a ["memory_index"] under the key of the
    tier (no entry at all is such a list). *)
Definition tier_listed (cur_memory : pyval) (t : tier) : Prop :=
  exists recorded, recorded_ids cur_memory t recorded.

(** ** A checkpoint saved and restored *)

Module RoundTrip.
Import Examples.

(** An agent constructed with a look-back window of 10 that has reflected
    on one day. *)
Definition agent1 : LLMAgent := set_reflection_result day1 bought agent0.

Definition saved := run scripted (save_checkpoint "checkpoints" false agent1)
                      (answering VNone None).

Definition restored := run scripted (load_checkpoint "checkpoints/agent") saved.1.2.
End RoundTrip.

(** ** Views of the calls of a run *)

Definition ev_call (e : event) : call :=
  match e with
  | Ev c _ => c
  end.

(** The calls of a run, in order, without their answers. *)
Definition calls_of (tr : list event) : list call := ev_call <$> tr.

(** The calls of the retrieval and reflection phases, with their answers:
    a query of a tier, the momentum request, the reasoning call. *)
Inductive retrieval : Type :=
| Queried (t : tier) (b : BrainDB) (query_text : string) (top_k : Z) (symbol : string)
    (answer : list pyval * list pyval)
| MomentAsked (p : Portfolio) (moment_window : Z) (answer : pyval)
| Reasoned (cur_date : date) (symbol : string) (run_mode : RunMode)
    (endpoint_func : GuardrailEndpoint) (memories : queried) (extra : reflection_input)
    (answer : pyval).

Definition retrieve_event (e : event) : option retrieval :=
  match e with
  | Ev c r =>
      match c return result_of c -> option retrieval with
      | brain_query_short b q k s => fun a => Some (Queried Short b q k s a)
      | brain_query_mid b q k s => fun a => Some (Queried Mid b q k s a)
      | brain_query_long b q k s => fun a => Some (Queried Long b q k s a)
      | brain_query_reflection b q k s => fun a => Some (Queried Reflection b q k s a)
      | portfolio_get_moment p n => fun a => Some (MomentAsked p n a)
      | trading_reflection d s m g q x => fun a => Some (Reasoned d s m g q x a)
      | _ => fun _ => None
      end r
  end.

Definition retrieve (tr : list event) : list retrieval := omap retrieve_event tr.

(** A call that is neither a query, nor the momentum request, nor the
    reasoning call. *)
Definition quiet_call (c : call) : Prop :=
  match c with
  | brain_query_short _ _ _ _ | brain_query_mid _ _ _ _
  | brain_query_long _ _ _ _ | brain_query_reflection _ _ _ _
  | portfolio_get_moment _ _ | trading_reflection _ _ _ _ _ _ => False
  | _ => True
  end.

(** The queries a run sent to the memory store: tier, store, query text,
    top-k and symbol. *)
Definition queries_asked (tr : list event) : list (tier * BrainDB * string * Z * string) :=
  omap (fun o => match o with
                 | Queried t b q k s _ => Some (t, b, q, k, s)
                 | _ => None
                 end) (retrieve tr).

(** The momentum requests of a run: portfolio and window. *)
Definition moments_asked (tr : list event) : list (Portfolio * Z) :=
  omap (fun o => match o with MomentAsked p n _ => Some (p, n) | _ => None end) (retrieve tr).

(** What the memory store answered to the queries: texts and identifiers. *)
Definition query_answers (tr : list event) : list (list pyval * list pyval) :=
  omap (fun o => match o with Queried _ _ _ _ _ a => Some a | _ => None end) (retrieve tr).

(** What the portfolio answered to the momentum requests. *)
Definition moment_answers (tr : list event) : list pyval :=
  omap (fun o => match o with MomentAsked _ _ a => Some a | _ => None end) (retrieve tr).

(** The arguments of the reasoning calls of a run: date, symbol, run mode,
    end point, memories, and the realized outcome or the momentum. *)
Definition reasonings (tr : list event)
  : list (date * string * RunMode * GuardrailEndpoint * queried * reflection_input) :=
  omap (fun o => match o with
                 | Reasoned d s m g q x _ => Some (d, s, m, g, q, x)
                 | _ => None
                 end) (retrieve tr).

(** The eight values of the tuple, from the four answers in tier order. *)
Definition memories_of (short mid long refl : list pyval * list pyval) : queried :=
  {| cur_short_queried := short.1; cur_short_memory_id := short.2;
     cur_mid_queried := mid.1; cur_mid_memory_id := mid.2;
     cur_long_queried := long.1; cur_long_memory_id := long.2;
     cur_reflection_queried := refl.1; cur_reflection_memory_id := refl.2 |}.

(** The four queries of [__query_info_for_reflection] with their answers. *)
Definition four_queries (self : LLMAgent) (short mid long refl : list pyval * list pyval)
  : list retrieval :=
  [Queried Short (brain self) (character_string self) (top_k self) (trading_symbol self) short;
   Queried Mid (brain self) (character_string self) (top_k self) (trading_symbol self) mid;
   Queried Long (brain self) (character_string self) (top_k self) (trading_symbol self) long;
   Queried Reflection (brain self) (character_string self) (top_k self) (trading_symbol self)
     refl].

(** [cur_moment_ret["moment"] if cur_moment_ret is not None else None] *)
Definition moment_of (cur_moment_ret : pyval) : result pyval :=
  if bool_decide (cur_moment_ret ≠ VNone) then py_getitem cur_moment_ret "moment"
  else inr VNone.

(** The market updates a run made. *)
Definition market_updates (obs : list observation) : list (Portfolio * Qc * date) :=
  omap (fun o => match o with MarketUpdated p x d => Some (p, x, d) | _ => None end) obs.

(** The updates of the portfolio series a run made. *)
Definition series_updates (obs : list observation) : list Portfolio :=
  omap (fun o => match o with SeriesUpdated p => Some p | _ => None end) obs.

(** The writes to the Reflection tier: symbol, date and text. *)
Definition reflection_writes (obs : list observation) : list (string * date * pyval) :=
  omap (fun o => match o with
                 | Added Reflection _ s d x => Some (s, d, x)
                 | _ => None
                 end) obs.

(** The write [__reflection_on_record] makes for the answer [r] of the
    reasoning call: its ["summary_reason"], when [r] is true and has one. *)
Definition rationale (self : LLMAgent) (cur_date : date) (r : pyval)
  : list (string * date * pyval) :=
  if truthy r then
    match py_contains "summary_reason" r, py_getitem r "summary_reason" with
    | inr true, inr text => [(trading_symbol self, cur_date, text)]
    | _, _ => []
    end
  else [].

(** Phases 6 to 8 of [step]. *)
Definition act_program (action : gmap string Z) : M unit :=
  _portfolio_step action ;;
  _update_access_counter ;;
  let* self := get_self in
  invoke (brain_step (brain self)).

(** Every call a program can make, whatever the answers, satisfies [P]. *)
Fixpoint calls_within {A} (P : call -> Prop) (p : prog A) : Prop :=
  match p with
  | Ret _ => True
  | Call c k => P c /\ forall r, calls_within P (k r)
  end.


(** The identifiers of a list in the order of their first occurrence. *)
Fixpoint first_occurrences (ids : list pyval) : list pyval :=
  match ids with
  | [] => []
  | id :: ids' => id :: List.filter (fun x => bool_decide (x ≠ id)) (first_occurrences ids')
  end.

(** ** Construction from a configuration *)

(** The configuration [from_config] reads: [config["general"]] with its
    entries and [config["chat"]], each there or not.  The entries read as
    scalars are typed as the constructor takes them. *)
Record general_config : Type := {
  cfg_agent_name : option string;
  cfg_trading_symbol : option string;
  cfg_character_string : option string;
  cfg_top_k : option Z;
  cfg_look_back_window_size : option Z;
}.

(** [config["chat"]]: its ["endpoint"] entry and its other entries. *)
Record chat_config : Type := {
  cfg_endpoint : option string;
  cfg_settings : gmap string pyval;
}.

Record config_type : Type := {
  cfg_general : option general_config;
  cfg_chat : option chat_config;
}.

(** [d[k]] for an entry that is there or not. *)
Definition entry_of {A} (o : option A) : result A :=
  match o with
  | Some a => inr a
  | None => inl KeyError
  end.

(** The dictionary [config["chat"]] as a value. *)
Definition chat_dict (chat : chat_config) : pyval :=
  VDict match cfg_endpoint chat with
        | Some e => <["endpoint" := VStr e]> (cfg_settings chat)
        | None => delete "endpoint" (cfg_settings chat)
        end.

(** [LLMAgent.from_config].  The arguments of the constructor are evaluated
    in the order they are written: [inl e] is an exception raised before
    [BrainDB.from_config(config)] is called; [inr k] says that it is called,
    and [k brain_db] is what follows its answer [brain_db]. *)
Definition from_config (config : config_type) : result (BrainDB -> result (prog LLMAgent)) :=
  res_bind (entry_of (cfg_general config)) (fun general =>
  res_bind (entry_of (cfg_agent_name general)) (fun agent_name =>
  res_bind (entry_of (cfg_trading_symbol general)) (fun trading_symbol =>
  res_bind (entry_of (cfg_character_string general)) (fun character_string =>
  inr (fun brain_db =>
    let top_k := default 5 (cfg_top_k general) in
    res_bind (entry_of (cfg_chat config)) (fun chat =>
    res_bind (entry_of (cfg_endpoint chat)) (fun chat_end_point_name =>
    res_bind (entry_of (cfg_look_back_window_size general)) (fun look_back_window_size =>
    inr (__init__ agent_name trading_symbol character_string brain_db top_k
                  chat_end_point_name (chat_dict chat) look_back_window_size))))))))).

(** A configuration with every entry [from_config] reads. *)
Definition config0 : config_type :=
  {| cfg_general := Some {| cfg_agent_name := Some "agent";
                            cfg_trading_symbol := Some "TSLA";
                            cfg_character_string := Some "a trader";
                            cfg_top_k := None;
                            cfg_look_back_window_size := Some 3 |};
     cfg_chat := Some {| cfg_endpoint := Some "openai";
                         cfg_settings := {[ "model_name" := VStr "gpt-4" ]} |} |}.

(** The writes to the memory store, all four tiers: tier, symbol, date and
    text. *)
Definition memory_writes (obs : list observation) : list (tier * string * date * pyval) :=
  omap (fun o => match o with Added t _ s d x => Some (t, s, d, x) | _ => None end) obs.

(** ** Running methods *)

(** A key that is in a dictionary can be read. *)
Lemma contains_getitem (d : gmap string pyval) (k : string) :
  py_contains k (VDict d) = inr true -> exists x, py_getitem (VDict d) k = inr x.
Proof.
  simpl. intros [= Hk%bool_decide_eq_true]. destruct Hk as [x Hx].
  exists x. by rewrite Hx.
Qed.

Section Running.
Context {W : Type} (h : handler W).

Lemma run_pbind {A B} (p : prog A) (f : A -> prog B) (w : W) :
  run h (pbind p f) w =
  let o1 := run h p w in
  let o2 := run h (f o1.1.1) o1.1.2 in
  (o2.1, o1.2 ++ o2.2).
Proof.
  revert w. induction p as [a|c k IH]; intros w; simpl.
  - by destruct (run h (f a) w) as [[??]?].
  - by rewrite IH.
Qed.

(** The outcome of a method followed by another: the second runs on the
    agent and the collaborators the first left, unless the first raised. *)
Lemma run_bind {A B} (m : M A) (f : A -> M B) (self : LLMAgent) (w : W) :
  run h (bind m f self) w =
  let o1 := run h (m self) w in
  match o1.1.1.1 with
  | inl e => ((inl e, o1.1.1.2), o1.1.2, o1.2)
  | inr a =>
      let o2 := run h (f a o1.1.1.2) o1.1.2 in
      (o2.1, o1.2 ++ o2.2)
  end.
Proof.
  unfold bind. rewrite run_pbind. simpl.
  destruct (run h (m self) w) as [[[[e|a] self'] w'] tr]; simpl; [|done].
  by rewrite app_nil_r.
Qed.

Lemma run_ret {A} (a : A) (self : LLMAgent) (w : W) :
  run h (ret a self) w = ((inr a, self), w, []).
Proof. reflexivity. Qed.

Lemma run_raise {A} (e : exn) (self : LLMAgent) (w : W) :
  run h (raise (A:=A) e self) w = ((inl e, self), w, []).
Proof. reflexivity. Qed.

Lemma run_lift {A} (r : result A) (self : LLMAgent) (w : W) :
  run h (lift r self) w = ((r, self), w, []).
Proof. reflexivity. Qed.

Lemma run_get_self (self : LLMAgent) (w : W) :
  run h (get_self self) w = ((inr self, self), w, []).
Proof. reflexivity. Qed.

Lemma run_put_self (self' self : LLMAgent) (w : W) :
  run h (put_self self' self) w = ((inr tt, self'), w, []).
Proof. reflexivity. Qed.

Lemma run_invoke (c : call) (self : LLMAgent) (w : W) :
  run h (invoke c self) w = ((inr (h c w).1, self), (h c w).2, [Ev c (h c w).1]).
Proof. reflexivity. Qed.

Lemma observe_app (t1 t2 : list event) : observe (t1 ++ t2) = observe t1 ++ observe t2.
Proof. apply omap_app. Qed.
End Running.

Create Rewrite HintDb run.
#[global] Hint Rewrite @run_bind @run_ret @run_raise @run_lift @run_get_self
  @run_put_self @run_invoke : run.

(** Closes a goal [exists w' tr, run ... = ... /\ observe tr = ...] once the
    run has been computed. *)
Ltac by_run := do 2 eexists; split; reflexivity.

(** Names the answer of a call made from a state of the collaborators that
    is already named; an answer that is [None] is replaced by its value. *)
Ltac name_answer h :=
  match goal with
  | |- context [h ?c ?w] =>
      is_var w;
      let r := fresh "ans" in
      let w' := fresh "w" in
      destruct (h c w) as [r w']; simpl in r;
      try match type of r with unit => destruct r end;
      simpl
  end.

(** Computes the run of a method as far as its control flow is known. *)
Ltac run_steps := repeat (progress (autorewrite with run; simpl)).

(** ** Reinforcement, read off the record *)

Section RunningReinforcement.
Context {W : Type} (h : handler W).

Lemma run_update_tier (t : tier) (fb : Feedback) (cur_memory : pyval)
    (self : LLMAgent) (w : W) :
  exists w' tr,
    run h (update_tier t fb cur_memory self) w =
      ((match tier_ids cur_memory t with inl e => inl e | inr _ => inr tt end, self), w', tr)
    /\ observe tr =
         match tier_ids cur_memory t with
         | inr (Some ids) => [reinforced_with self (feedback fb) ids]
         | _ => []
         end.
Proof.
  unfold tier_ids.
  destruct t; simpl;
    unfold __update_short_memory_access_counter, __update_mid_memory_access_counter,
      __update_long_memory_access_counter, __update_reflection_memory_access_counter,
      __update_access_counter_sub;
    run_steps;
    (destruct (py_contains _ cur_memory) as [e|[]]; run_steps; [by_run| |by_run]);
    (destruct (py_getitem cur_memory _) as [e|layer]; run_steps; [by_run|]);
    (destruct (py_iter layer) as [e|items]; run_steps; [by_run|]);
    (destruct (collect_cur_ids items []) as [e|ids]; run_steps; [by_run|]);
    name_answer h; by_run.
Qed.

Lemma run_reinforce_tiers (fb : Feedback) (cur_memory : pyval) (self : LLMAgent) (w : W) :
  exists w' tr,
    run h ((__update_short_memory_access_counter fb cur_memory ;;
            __update_mid_memory_access_counter fb cur_memory ;;
            __update_long_memory_access_counter fb cur_memory ;;
            __update_reflection_memory_access_counter fb cur_memory) self) w =
      (((reinforce_tiers cur_memory all_tiers).1, self), w', tr)
    /\ observe tr =
         reinforced_with self (feedback fb) <$> (reinforce_tiers cur_memory all_tiers).2.
Proof.
  destruct (run_update_tier Short fb cur_memory self w) as (w1 & t1 & R1 & O1).
  rewrite run_bind. simpl in R1. rewrite R1. simpl.
  destruct (tier_ids cur_memory Short) as [e|o1]; simpl; [by eauto|].
  destruct (run_update_tier Mid fb cur_memory self w1) as (w2 & t2 & R2 & O2).
  rewrite run_bind. simpl in R2. rewrite R2. simpl.
  destruct (tier_ids cur_memory Mid) as [e|o2]; simpl.
  { exists w2, (t1 ++ t2). rewrite observe_app, O1, O2, app_nil_r.
    by destruct o1. }
  destruct (run_update_tier Long fb cur_memory self w2) as (w3 & t3 & R3 & O3).
  rewrite run_bind. simpl in R3. rewrite R3. simpl.
  destruct (tier_ids cur_memory Long) as [e|o3]; simpl.
  { exists w3, (t1 ++ t2 ++ t3). rewrite !observe_app, O1, O2, O3, app_nil_r.
    by destruct o1, o2. }
  destruct (run_update_tier Reflection fb cur_memory self w3) as (w4 & t4 & R4 & O4).
  simpl in R4. rewrite R4. simpl.
  exists w4, (t1 ++ t2 ++ t3 ++ t4). rewrite !observe_app, O1, O2, O3, O4.
  destruct (tier_ids cur_memory Reflection) as [e|o4]; simpl;
    [by destruct o1, o2, o3|by destruct o1, o2, o3, o4].
Qed.

(** [_update_access_counter] asks for feedback once and then sends what
    [consume_feedback] says; the agent is left as it was. *)
Lemma run_update_access_counter (self : LLMAgent) (w : W) :
  exists w' tr answer,
    run h (_update_access_counter self) w =
      (((consume_feedback self answer).1, self), w', tr)
    /\ observe tr =
         FeedbackAnswered answer ::
           (reinforced_with self (magnitude answer) <$> (consume_feedback self answer).2).
Proof.
  unfold _update_access_counter. run_steps.
  destruct (h (portfolio_get_feedback_response (portfolio self)) w) as [answer w1] eqn:Hh.
  simpl. destruct answer as [fb|]; run_steps.
  2: { exists w1, [Ev (portfolio_get_feedback_response (portfolio self)) None], None.
       split; reflexivity. }
  destruct (bool_decide (feedback fb ≠ 0)) eqn:Hfb; run_steps.
  2: { exists w1, [Ev (portfolio_get_feedback_response (portfolio self)) (Some fb)], (Some fb).
       simpl. rewrite Hfb. split; reflexivity. }
  destruct (reflection_result_series_dict self !! feedback_date fb) as [cur_memory|] eqn:Hd.
  2: { run_steps.
       exists w1, [Ev (portfolio_get_feedback_response (portfolio self)) (Some fb)], (Some fb).
       simpl. rewrite Hfb, Hd. split; reflexivity. }
  destruct (run_reinforce_tiers fb cur_memory self w1) as (w2 & t2 & R2 & O2).
  rewrite R2. simpl.
  exists w2, (Ev (portfolio_get_feedback_response (portfolio self)) (Some fb) :: t2), (Some fb).
  simpl. rewrite Hfb, Hd. split; [done|].
  unfold observe in *. simpl. by rewrite O2.
Qed.
End RunningReinforcement.

(** ** Ingestion and reflection, read off the inputs *)

Section RunningPhases.
Context {W : Type} (h : handler W).

Lemma run_handling_filings (self : LLMAgent) (cur_date : date)
    (filing_q filing_k : pyval) (w : W) :
  exists w' tr,
    run h (_handling_filings cur_date filing_q filing_k self) w = ((inr tt, self), w', tr)
    /\ observe tr =
         (if bool_decide (filing_q ≠ VDict ∅)
          then [Added Mid (brain self) (trading_symbol self) cur_date filing_q] else []) ++
         (if bool_decide (filing_k ≠ VDict ∅)
          then [Added Long (brain self) (trading_symbol self) cur_date filing_k] else []).
Proof.
  unfold _handling_filings. run_steps.
  repeat case_bool_decide; run_steps; repeat name_answer h; by_run.
Qed.

Lemma run_handling_news (self : LLMAgent) (cur_date : date) (news : pyval) (w : W) :
  exists w' tr,
    run h (_handling_news cur_date news self) w = ((inr tt, self), w', tr)
    /\ observe tr =
         (if bool_decide (news ≠ VDict ∅)
          then [Added Short (brain self) (trading_symbol self) cur_date news] else []).
Proof.
  unfold _handling_news. run_steps.
  repeat case_bool_decide; run_steps; repeat name_answer h; by_run.
Qed.

Lemma run_reflect (run_mode : RunMode) (cur_date : date) (cur_record : option Qc)
    (self : LLMAgent) (w : W) :
  (forall v, run_mode ≠ NotARunMode v) ->
  exists w' tr res self',
    run h (_reflect cur_date run_mode cur_record self) w = ((res, self'), w', tr)
    /\ reflect_spec run_mode cur_date self res self' (observe tr).
Proof.
  intros Hmode.
  unfold _reflect, __reflection_on_record, __query_info_for_reflection.
  destruct run_mode as [| |v]; [| |by destruct (Hmode v)]; run_steps.
  - (* Train *)
    do 5 name_answer h. rename ans3 into r.
    destruct (truthy r) eqn:Ht; run_steps.
    + destruct (py_contains "summary_reason" r) as [e|[]] eqn:Hc; run_steps.
      * do 4 eexists. split; [reflexivity|]. simpl.
        apply reflect_unstored; [done|]. by intros d ->.
      * destruct (py_getitem r "summary_reason") as [e|text] eqn:Hg; run_steps.
        -- do 4 eexists. split; [reflexivity|]. simpl.
           apply reflect_unstored; [done|]. intros d ->.
           destruct (contains_getitem _ _ Hc) as [y Hy]. congruence.
        -- name_answer h. destruct (py_get r "summary_reason") as [e|y] eqn:Hy; run_steps;
             (do 4 eexists; split; [reflexivity|]; simpl;
              replace (inl e) with (log_outcome Train r)
                || replace (inr tt) with (log_outcome Train r);
              [apply reflect_stored; right; by eexists | by simpl; rewrite Hy]).
      * destruct (py_get r "summary_reason") as [e|y] eqn:Hy; run_steps;
          (do 4 eexists; split; [reflexivity|]; simpl;
           replace (inl e) with (log_outcome Train r)
             || replace (inr tt) with (log_outcome Train r);
           [apply reflect_stored; by left | by simpl; rewrite Hy]).
    + destruct (py_get r "summary_reason") as [e|y] eqn:Hy; run_steps;
        (do 4 eexists; split; [reflexivity|]; simpl;
         replace (inl e) with (log_outcome Train r)
           || replace (inr tt) with (log_outcome Train r);
         [apply reflect_stored; by left | by simpl; rewrite Hy]).
  - (* Test *)
    do 5 name_answer h. rename ans3 into cur_moment_ret.
    assert (exists mres : result pyval,
               (if bool_decide (cur_moment_ret ≠ VNone)
                then lift (py_getitem cur_moment_ret "moment")
                else ret VNone) = lift mres) as [mres ->].
    { case_bool_decide; eexists; reflexivity. }
    run_steps. destruct mres as [e|cur_moment]; run_steps.
    { do 4 eexists. split; [reflexivity|]. apply reflect_unanswered. }
    name_answer h. rename ans3 into r.
    destruct (truthy r) eqn:Ht; run_steps.
    + destruct (py_contains "summary_reason" r) as [e|[]] eqn:Hc; run_steps.
      * do 4 eexists. split; [reflexivity|]. simpl.
        apply reflect_unstored; [done|]. by intros d ->.
      * destruct (py_getitem r "summary_reason") as [e|text] eqn:Hg; run_steps.
        -- do 4 eexists. split; [reflexivity|]. simpl.
           apply reflect_unstored; [done|]. intros d ->.
           destruct (contains_getitem _ _ Hc) as [y Hy]. congruence.
        -- name_answer h. rewrite Ht. run_steps.
           destruct (py_getitem r "investment_decision") as [e|y] eqn:Hy; run_steps;
             [|destruct (py_get r "summary_reason") as [e|z] eqn:Hz; run_steps];
             (do 4 eexists; split; [reflexivity|]; simpl;
              replace (inl e) with (log_outcome Test r)
                || replace (inr tt) with (log_outcome Test r);
              [apply reflect_stored; right; by eexists
              | by simpl; rewrite Ht, Hy, ?Hz]).
      * rewrite Ht. run_steps.
        destruct (py_getitem r "investment_decision") as [e|y] eqn:Hy; run_steps;
          [|destruct (py_get r "summary_reason") as [e|z] eqn:Hz; run_steps];
          (do 4 eexists; split; [reflexivity|]; simpl;
           replace (inl e) with (log_outcome Test r)
             || replace (inr tt) with (log_outcome Test r);
           [apply reflect_stored; by left
           | by simpl; rewrite Ht, Hy, ?Hz]).
    + rewrite Ht. run_steps.
      do 4 eexists; split; [reflexivity|]; simpl.
      replace (inr tt) with (log_outcome Test r) by (by simpl; rewrite Ht).
      apply reflect_stored; by left.
Qed.
End RunningPhases.

(** ** A step, read off its inputs and the answers *)

Section RunningStep.
Context {W : Type} (h : handler W).

Lemma run_act (self : LLMAgent) (action : gmap string Z) (w : W) :
  exists w' tr answer,
    run h ((_portfolio_step action ;;
            _update_access_counter ;;
            let* self := get_self in
            invoke (brain_step (brain self))) self) w
    = (((consume_feedback self answer).1, self), w', tr)
    /\ observe tr = act_observations self action answer.
Proof.
  unfold _portfolio_step, act_observations.
  remember _update_access_counter as counting eqn:Hcounting.
  run_steps. do 2 name_answer h. subst counting.
  destruct (run_update_access_counter h self w1) as (w2 & t2 & answer & R2 & O2).
  rewrite R2. simpl.
  destruct (consume_feedback self answer).1 as [e|[]] eqn:Hres; run_steps.
  - exists w2, ([Ev (portfolio_record_action (portfolio self) action) ();
                 Ev (portfolio_update_portfolio_series (portfolio self)) ()] ++ t2),
      answer.
    rewrite Hres. split; [reflexivity|].
    rewrite observe_app, O2. simpl. by rewrite app_nil_r.
  - name_answer h.
    exists w3, ([Ev (portfolio_record_action (portfolio self) action) ();
                 Ev (portfolio_update_portfolio_series (portfolio self)) ()]
                  ++ t2 ++ [Ev (brain_step (brain self)) ()]),
      answer.
    rewrite Hres. split; [reflexivity|].
    rewrite !observe_app, O2. done.
Qed.

Lemma run_step (self : LLMAgent) (cur_date : date) (cur_price : Qc)
    (filing_k filing_q news : pyval) (cur_record : option Qc) (run_mode : RunMode)
    (w : W) :
  (forall v, run_mode ≠ NotARunMode v) ->
  exists w' tr res self',
    run h (step (cur_date, cur_price, filing_k, filing_q, news, cur_record, false)
             run_mode self) w
    = ((res, self'), w', tr)
    /\ step_spec self cur_date cur_price filing_k filing_q news cur_record run_mode
         res self' (observe tr).
Proof.
  intros Hmode. unfold step.
  remember (_reflect cur_date run_mode cur_record) as reflecting eqn:Hreflecting.
  remember _portfolio_step as acting eqn:Hacting.
  remember _update_access_counter as counting eqn:Hcounting.
  destruct (run_handling_filings h self cur_date filing_q filing_k w)
    as (w1 & t1 & R1 & O1).
  destruct (run_handling_news h self cur_date news w1) as (w2 & t2 & R2 & O2).
  destruct (h (portfolio_update_market_info (portfolio self) cur_price cur_date) w2)
    as [[] w3] eqn:R3.
  destruct (run_reflect h run_mode cur_date cur_record self w3 Hmode)
    as (w4 & t4 & res & self' & R4 & S4).
  assert (observe (t1 ++ t2 ++
                   [Ev (portfolio_update_market_info (portfolio self) cur_price cur_date) tt])
          = ingest_observations self cur_date cur_price filing_k filing_q news) as Hingest.
  { rewrite !observe_app, O1, O2. unfold ingest_observations.
    by rewrite <- !app_assoc. }
  assert (exists w' tr,
            run h ((let* cur_action :=
                      match run_mode with
                      | Train => lift (_construct_train_actions cur_record)
                      | _ =>
                          let* self := get_self in
                          match reflection_result_series_dict self !! cur_date with
                          | None => raise KeyError
                          | Some test_reflection_result =>
                              lift (__process_test_action test_reflection_result)
                          end
                      end in
                    acting cur_action ;;
                    counting ;;
                    let* self := get_self in
                    invoke (brain_step (brain self))) self') w4
            = (match decide_action run_mode cur_date cur_record self' with
               | inl e => inl e
               | inr action => (consume_feedback self' (tr.1)).1
               end, self', w', tr.2)
            /\ observe tr.2 =
                 match decide_action run_mode cur_date cur_record self' with
                 | inl e => []
                 | inr action => act_observations self' action tr.1
                 end) as (w5 & [answer t5] & R5 & O5); [|simpl in R5, O5].
  { rewrite run_bind.
    assert (run h (match run_mode with
                   | Train => lift (_construct_train_actions cur_record)
                   | _ =>
                       let* self := get_self in
                       match reflection_result_series_dict self !! cur_date with
                       | None => raise KeyError
                       | Some test_reflection_result =>
                           lift (__process_test_action test_reflection_result)
                       end
                   end self') w4
            = ((decide_action run_mode cur_date cur_record self', self'), w4, [])) as ->.
    { unfold decide_action.
      destruct run_mode as [| |v]; [done| |by destruct (Hmode v)].
      run_steps. by destruct (reflection_result_series_dict self' !! cur_date). }
    simpl. destruct (decide_action run_mode cur_date cur_record self') as [e|action].
    { by exists w4, (None, []). }
    subst acting counting.
    destruct (run_act self' action w4) as (w5 & t5 & answer & R5 & O5).
    exists w5, (answer, t5). by rewrite R5. }
  assert (run h (reflecting self) w3 = (res, self', w4, t4)) as R4' by (by subst).
  clear Hreflecting R4.
  destruct (decide_action run_mode cur_date cur_record self') as [e'|action] eqn:Hact.
  all: destruct run_mode as [| |v]; [| |by destruct (Hmode v)].
  all: rewrite run_bind, R1; simpl; rewrite run_bind, R2; simpl.
  all: rewrite R3; simpl.
  all: rewrite run_bind, R4'; simpl.
  all: destruct res as [e|[]]; simpl.
  all: assert (forall t,
                 t1 ++ t2 ++
                 Ev (portfolio_update_market_info (portfolio self) cur_price cur_date) tt
                 :: t
                 = (t1 ++ t2 ++
                    [Ev (portfolio_update_market_info (portfolio self) cur_price cur_date)
                        tt]) ++ t) as Hsplit
         by (intros; by rewrite <- !app_assoc).
  all: try (do 4 eexists; split; [reflexivity|];
            rewrite Hsplit, observe_app, Hingest;
            by apply step_stops_reflecting).
  all: rewrite R5; simpl.
  all: do 4 eexists; (split; [reflexivity|]).
  all: rewrite Hsplit, observe_app, Hingest, observe_app, O5.
  all: try (rewrite app_nil_r; by apply step_stops_deciding).
  all: by apply step_acts.
Qed.
End RunningStep.

(** ** What each phase contributes to what a run shows *)

Lemma omap_reinforced_none {A} (f : observation -> option A) (self : LLMAgent) (fb : Z)
    (calls : list (list pyval)) :
  (forall ids, f (reinforced_with self fb ids) = None) ->
  omap f (reinforced_with self fb <$> calls) = [].
Proof. intros Hf. induction calls as [|ids calls IH]; simpl; [done|by rewrite Hf]. Qed.

Lemma reinforcements_reinforced (self : LLMAgent) (fb : Z) (calls : list (list pyval)) :
  reinforcements (reinforced_with self fb <$> calls) = (fun ids => (ids, fb)) <$> calls.
Proof. induction calls as [|ids calls IH]; simpl; [done|]. by f_equal. Qed.

Section Contributions.
Context (self : LLMAgent) (cur_date : date) (cur_price : Qc)
  (filing_k filing_q news : pyval).

Let ingest := ingest_observations self cur_date cur_price filing_k filing_q news.

Lemma ingest_document_writes :
  document_writes ingest =
    (if bool_decide (filing_q ≠ VDict ∅)
     then [(Mid, trading_symbol self, cur_date, filing_q)] else []) ++
    (if bool_decide (filing_k ≠ VDict ∅)
     then [(Long, trading_symbol self, cur_date, filing_k)] else []) ++
    (if bool_decide (news ≠ VDict ∅)
     then [(Short, trading_symbol self, cur_date, news)] else []).
Proof.
  unfold ingest, ingest_observations. by repeat case_bool_decide.
Qed.

Lemma ingest_quiet :
  actions ingest = [] /\ feedback_answers ingest = [] /\ reinforcements ingest = [] /\
  reflection_answers ingest = [] /\ maintenance ingest = [].
Proof.
  unfold ingest, ingest_observations. by repeat case_bool_decide.
Qed.
End Contributions.

Lemma reflect_quiet (run_mode : RunMode) (cur_date : date) (self self' : LLMAgent)
    (res : result unit) (obs : list observation) :
  reflect_spec run_mode cur_date self res self' obs ->
  document_writes obs = [] /\ actions obs = [] /\ feedback_answers obs = [] /\
  reinforcements obs = [] /\ maintenance obs = [].
Proof.
  intros [e|x r e Ht Hd|x r adds [->|[text ->]]]; done.
Qed.

(** Reflection assigns one entry of [reflection_result_series_dict] at most
    and no other attribute. *)
Lemma reflect_frame (run_mode : RunMode) (cur_date : date) (self self' : LLMAgent)
    (res : result unit) (obs : list observation) :
  reflect_spec run_mode cur_date self res self' obs ->
  self' = self \/ exists r, self' = set_reflection_result cur_date r self.
Proof.
  intros [e|x r e Ht Hd|x r adds _]; eauto.
Qed.

Lemma act_contributions (self : LLMAgent) (action : gmap string Z) (answer : option Feedback) :
  let obs := act_observations self action answer in
  document_writes obs = [] /\ reflection_answers obs = [] /\
  actions obs = [action] /\ feedback_answers obs = [answer] /\
  reinforcements obs = (fun ids => (ids, magnitude answer)) <$> (consume_feedback self answer).2 /\
  maintenance obs =
    match (consume_feedback self answer).1 with
    | inr _ => [brain self]
    | inl _ => []
    end.
Proof.
  unfold act_observations. simpl.
  unfold document_writes, reflection_answers, actions, feedback_answers, reinforcements,
    maintenance.
  simpl. rewrite !omap_app.
  rewrite !(omap_reinforced_none _ self) by done.
  fold (reinforcements (reinforced_with self (magnitude answer) <$>
                          (consume_feedback self answer).2)).
  rewrite reinforcements_reinforced.
  destruct (consume_feedback self answer).1; simpl;
    repeat (rewrite omap_reinforced_none by done); by rewrite ?app_nil_r.
Qed.

(** ** The step entry point: run mode and done flag *)

(** C10: with a run mode other than Train or Test the step raises
    [ValueError] at once, whatever the done flag: no collaborator is called,
    the collaborators and the agent are as before. *)
Theorem step_invalid_run_mode {W} (h : handler W) (w : W) (self : LLMAgent)
    (market_info : market_info_type) (v : pyval) :
  run h (step market_info (NotARunMode v) self) w = ((inl ValueError, self), w, []).
Proof. reflexivity. Qed.

(** C8: with the done flag set and a valid run mode the step returns
    without a single collaborator call (no memory write, no market update,
    no reasoning call, no action, no feedback request, no reinforcement, no
    maintenance) and leaves the agent and the collaborators as they were. *)
Theorem step_done_noop {W} (h : handler W) (w : W) (self : LLMAgent)
    (cur_date : date) (cur_price : Qc) (filing_k filing_q news : pyval)
    (cur_record : option Qc) (run_mode : RunMode) :
  run_mode = Train \/ run_mode = Test ->
  run h (step (cur_date, cur_price, filing_k, filing_q, news, cur_record, true)
           run_mode self) w
  = ((inr tt, self), w, []).
Proof. intros [-> | ->]; reflexivity. Qed.

Lemma step_done_noop_witness :
  run scripted (step (Examples.news_only Examples.day1 true) Test Examples.agent0)
      (Examples.answering Examples.bought None)
  = ((inr tt, Examples.agent0), Examples.answering Examples.bought None, []).
Proof.
  apply (step_done_noop scripted). right. reflexivity.
Defined.

(** ** What a step shows, by the way it ends *)

Lemma step_spec_inv (self : LLMAgent) (cur_date : date) (cur_price : Qc)
    (filing_k filing_q news : pyval) (cur_record : option Qc) (run_mode : RunMode)
    (res : result unit) (self' : LLMAgent) (obs : list observation) :
  step_spec self cur_date cur_price filing_k filing_q news cur_record run_mode res self' obs ->
  exists res_r obs_r,
    reflect_spec run_mode cur_date self res_r self' obs_r /\
    reflection_answers obs = reflection_answers obs_r /\
    ((exists e,
         res = inl e /\
         (res_r = inl e \/
          (res_r = inr tt /\ decide_action run_mode cur_date cur_record self' = inl e)) /\
         actions obs = [] /\ feedback_answers obs = [] /\
         reinforcements obs = [] /\ maintenance obs = [])
     \/
     (exists action answer,
         res_r = inr tt /\
         decide_action run_mode cur_date cur_record self' = inr action /\
         res = (consume_feedback self' answer).1 /\
         actions obs = [action] /\ feedback_answers obs = [answer] /\
         reinforcements obs =
           (fun ids => (ids, magnitude answer)) <$> (consume_feedback self' answer).2 /\
         maintenance obs =
           match (consume_feedback self' answer).1 with
           | inr _ => [brain self']
           | inl _ => []
           end)).
Proof.
  destruct (ingest_quiet self cur_date cur_price filing_k filing_q news)
    as (Ia & If & Ir & Ia' & Im).
  intros [e s obs_r Hr|e s obs_r Hr Hact|s obs_r action answer Hr Hact].
  - destruct (reflect_quiet _ _ _ _ _ _ Hr) as (_ & Ra & Rf & Rr & Rm).
    exists (inl e), obs_r. split; [done|].
    unfold reflection_answers, actions, feedback_answers, reinforcements, maintenance in *.
    rewrite !omap_app, Ia, If, Ir, Ia', Im, Ra, Rf, Rr, Rm. split; [done|].
    left. exists e. eauto 10.
  - destruct (reflect_quiet _ _ _ _ _ _ Hr) as (_ & Ra & Rf & Rr & Rm).
    exists (inr tt), obs_r. split; [done|].
    unfold reflection_answers, actions, feedback_answers, reinforcements, maintenance in *.
    rewrite !omap_app, Ia, If, Ir, Ia', Im, Ra, Rf, Rr, Rm. split; [done|].
    left. exists e. eauto 10.
  - destruct (reflect_quiet _ _ _ _ _ _ Hr) as (_ & Ra & Rf & Rr & Rm).
    destruct (act_contributions s action answer) as (_ & Aa' & Aa & Af & Ar & Am).
    exists (inr tt), obs_r. split; [done|].
    unfold reflection_answers, actions, feedback_answers, reinforcements, maintenance in *.
    rewrite !omap_app, Ia, If, Ir, Ia', Im, Ra, Rf, Rr, Rm, Aa', Aa, Af, Ar, Am.
    rewrite app_nil_r. split; [done|].
    right. exists action, answer. eauto 10.
Qed.

(** When the reasoning call answered something empty or a dictionary, the
    answer is stored under the date and the outcome of the reflection is
    that of its log lines. *)
Lemma reflect_spec_answer (run_mode : RunMode) (cur_date : date) (self self' : LLMAgent)
    (res : result unit) (obs : list observation) (r : pyval) :
  reflect_spec run_mode cur_date self res self' obs ->
  r ∈ reflection_answers obs ->
  truthy r = false \/ (exists d, r = VDict d) ->
  res = log_outcome run_mode r /\ self' = set_reflection_result cur_date r self.
Proof.
  intros [e|x r' e Ht Hd|x r' adds Hadds] Hin Hr.
  - by apply elem_of_nil in Hin.
  - apply list_elem_of_singleton in Hin as ->.
    destruct Hr as [Hr|[d ->]]; [congruence|by destruct (Hd d)].
  - assert (reflection_answers (Reflected run_mode x r' :: adds) = [r']) as Heq.
    { by destruct Hadds as [->|[text ->]]. }
    rewrite Heq in Hin. by apply list_elem_of_singleton in Hin as ->.
Qed.

Lemma lookup_set_reflection_result (cur_date : date) (r : pyval) (self : LLMAgent) :
  reflection_result_series_dict (set_reflection_result cur_date r self) !! cur_date = Some r.
Proof. apply lookup_insert_eq. Qed.

(** ** Action derivation *)





(** C3, amended: in a Test step the reasoning result is stored under the
    current date and the action recorded on the portfolio has direction 0
    when the result is absent or empty, and the direction of its decision
    label (1 for buy, 0 for hold, -1 for sell, 0 for any other label) when it
    is a dictionary with a decision label. *)
Theorem test_action {W} (h : handler W) (w : W) (self : LLMAgent)
    (cur_date : date) (cur_price : Qc) (filing_k filing_q news : pyval)
    (cur_record : option Qc) (r : pyval) :
  let out := run h (step (cur_date, cur_price, filing_k, filing_q, news, cur_record, false)
                      Test self) w in
  r ∈ reflection_answers (observe out.2) ->
  (truthy r = false ->
     reflection_result_series_dict out.1.1.2 !! cur_date = Some r /\
     actions (observe out.2) = [{[ "direction" := 0 ]}])
  /\ (forall d label,
        r = VDict d -> d !! "investment_decision" = Some label ->
        reflection_result_series_dict out.1.1.2 !! cur_date = Some r /\
        actions (observe out.2) = [{[ "direction" := direction_of_label label ]}]).
Proof.
  destruct (run_step h self cur_date cur_price filing_k filing_q news cur_record Test w)
    as (w' & tr & res & self' & Hrun & Hspec); [done|].
  rewrite Hrun. simpl. intros Hin.
  apply step_spec_inv in Hspec as (res_r & obs_r & Hr & Hanswers & Hend).
  rewrite Hanswers in Hin.
  assert (forall action,
             (truthy r = false \/ exists d, r = VDict d) ->
             log_outcome Test r = inr tt ->
             __process_test_action r = inr action ->
             reflection_result_series_dict self' !! cur_date = Some r /\
             actions (observe tr) = [action]) as Hacts.
  { intros action Hshape Hlog Hproc.
    destruct (reflect_spec_answer _ _ _ _ _ _ _ Hr Hin Hshape) as [-> ->].
    rewrite lookup_set_reflection_result. split; [done|].
    destruct Hend as [(e & _ & [Hres|[_ Hact]] & _)|(a & answer & _ & Hact & _ & Hone & _)].
    - congruence.
    - simpl in Hact. rewrite lookup_insert_eq in Hact. congruence.
    - simpl in Hact. rewrite lookup_insert_eq in Hact. congruence. }
  split.
  - intros Hfalsy. apply Hacts; [by left| |].
    + simpl. by rewrite Hfalsy.
    + unfold __process_test_action, decision_is. by rewrite Hfalsy.
  - intros d label -> Hlabel.
    assert (truthy (VDict d) = true) as Htruthy.
    { simpl. apply bool_decide_eq_true. intros ->. by rewrite lookup_empty in Hlabel. }
    apply Hacts; [by eauto| |].
    + unfold log_outcome. rewrite Htruthy. simpl. by rewrite Hlabel.
    + unfold __process_test_action, decision_is, direction_of_label.
      rewrite Htruthy. simpl. rewrite Hlabel. simpl.
      repeat case_bool_decide; simplify_eq; done.
Qed.

Lemma test_action_witness :
  let out := run scripted (step (Examples.news_only Examples.day1 false) Test Examples.agent0)
               (Examples.answering Examples.bought None) in
  reflection_result_series_dict out.1.1.2 !! Examples.day1 = Some Examples.bought /\
  actions (observe out.2) = [{[ "direction" := 1 ]}].
Proof.
  refine (proj2 (test_action scripted (Examples.answering Examples.bought None)
                   Examples.agent0 Examples.day1 1%Qc (VDict ∅) (VDict ∅)
                   (VList [VStr "rate hike"]) (Some (Q2Qc (1 # 2))) Examples.bought _)
            _ (VStr "buy") eq_refl _).
  - vm_compute. left.
  - vm_compute. reflexivity.
Defined.

(** C3 as stated fails: a reasoning result that is not empty and has no
    decision label makes the Test step raise [KeyError], and no action is
    recorded. *)
Lemma test_action_without_label :
  let r := VDict {[ "summary_reason" := VStr "earnings look solid" ]} in
  let out := run scripted (step (Examples.news_only Examples.day1 false) Test Examples.agent0)
               (Examples.answering r None) in
  reflection_answers (observe out.2) = [r] /\
  py_contains "investment_decision" r = inr false /\
  out.1.1.1 = inl KeyError /\
  actions (observe out.2) = [].
Proof. vm_compute. done. Qed.

(** ** Reinforcement *)

Lemma collect_cur_ids_spec (items : list pyval) :
  forall cur_ids sent,
    collect_cur_ids items cur_ids = inr sent ->
    exists ids,
      Forall2 (fun i id => py_getitem i "memory_index" = inr id) items ids /\
      (NoDup cur_ids -> NoDup sent) /\
      (forall x, x ∈ sent <-> x ∈ cur_ids \/ x ∈ ids).
Proof.
  induction items as [|i items IH]; intros cur_ids sent; simpl.
  - intros [= <-]. exists []. split; [constructor|]. split; [done|].
    intros x. rewrite elem_of_nil. tauto.
  - destruct (py_getitem i "memory_index") as [e|cur_id] eqn:Hi; simpl; [done|].
    intros Hrest. apply IH in Hrest as (ids & Hids & Hnodup & Hmem).
    exists (cur_id :: ids). split; [by constructor|]. split.
    + intros Hcur. apply Hnodup. case_bool_decide as Hin; [|done].
      apply NoDup_app. split; [done|]. split; [|apply NoDup_singleton].
      intros x Hx ->%list_elem_of_singleton. done.
    + intros x. rewrite Hmem, elem_of_cons.
      case_bool_decide as Hin.
      * rewrite elem_of_app, list_elem_of_singleton. tauto.
      * split; [tauto|]. intros [?|[->|?]]; tauto.
Qed.

(** Entries that all have a ["memory_index"] are collected without an
    exception. *)
Lemma collect_cur_ids_total (items ids : list pyval) :
  Forall2 (fun i id => py_getitem i "memory_index" = inr id) items ids ->
  forall cur_ids, exists sent, collect_cur_ids items cur_ids = inr sent.
Proof.
  induction 1 as [|i id items ids Hi _ IH]; intros cur_ids; simpl; [by eauto|].
  rewrite Hi. simpl. apply IH.
Qed.

Lemma tier_ids_sent (cur_memory : pyval) (t : tier) (sent : list pyval) :
  tier_ids cur_memory t = inr (Some sent) ->
  py_contains (layer_index_name t) cur_memory = inr true /\
  exists recorded, recorded_ids cur_memory t recorded /\ deduplicated recorded sent.
Proof.
  unfold tier_ids.
  destruct (py_contains (layer_index_name t) cur_memory) as [e|[]]; simpl; [done| |done].
  destruct (py_getitem cur_memory (layer_index_name t)) as [e|layer] eqn:Hlayer;
    simpl; [done|].
  destruct (py_iter layer) as [e|items] eqn:Hitems; simpl; [done|].
  destruct (collect_cur_ids items []) as [e|out] eqn:Hout; simpl; [done|].
  intros [= <-]. split; [done|].
  apply collect_cur_ids_spec in Hout as (ids & Hids & Hnodup & Hmem).
  exists ids. split; [by exists layer, items|]. split; [apply Hnodup; constructor|].
  intros x. rewrite Hmem, elem_of_nil. tauto.
Qed.

Lemma tier_ids_skipped (cur_memory : pyval) (t : tier) :
  tier_ids cur_memory t = inr None <->
  py_contains (layer_index_name t) cur_memory = inr false.
Proof.
  unfold tier_ids.
  destruct (py_contains (layer_index_name t) cur_memory) as [e|[]]; simpl; [done| |done].
  split; [|done].
  destruct (py_getitem cur_memory (layer_index_name t)) as [e|layer]; simpl; [done|].
  destruct (py_iter layer) as [e|items]; simpl; [done|].
  by destruct (collect_cur_ids items []).
Qed.

(** A tier of a dictionary whose entries are as [recorded_ids] wants them
    does not raise. *)
Lemma tier_ids_total (d : gmap string pyval) (t : tier) :
  (py_contains (layer_index_name t) (VDict d) = inr true ->
   exists recorded, recorded_ids (VDict d) t recorded) ->
  exists o, tier_ids (VDict d) t = inr o.
Proof.
  intros Hrec. unfold tier_ids. simpl.
  case_bool_decide as Hkey; simpl; [|by eauto].
  destruct Hrec as (recorded & layer & items & Hlayer & Hitems & Hids).
  { simpl. by rewrite bool_decide_true. }
  simpl in Hlayer. rewrite Hlayer. simpl. rewrite Hitems. simpl.
  destruct (collect_cur_ids_total _ _ Hids []) as [sent ->]. simpl. by eauto.
Qed.

(** A step that was answered a feedback request ends as consuming the
    answer ends, on the agent as the step leaves it. *)
Lemma step_feedback {W} (h : handler W) (w : W) (self : LLMAgent)
    (cur_date : date) (cur_price : Qc) (filing_k filing_q news : pyval)
    (cur_record : option Qc) (run_mode : RunMode) (answer : option Feedback) :
  run_mode = Train \/ run_mode = Test ->
  let out := run h (step (cur_date, cur_price, filing_k, filing_q, news, cur_record, false)
                      run_mode self) w in
  answer ∈ feedback_answers (observe out.2) ->
  out.1.1.1 = (consume_feedback out.1.1.2 answer).1 /\
  reinforcements (observe out.2) =
    (fun ids => (ids, magnitude answer)) <$> (consume_feedback out.1.1.2 answer).2 /\
  maintenance (observe out.2) =
    match (consume_feedback out.1.1.2 answer).1 with
    | inr _ => [brain out.1.1.2]
    | inl _ => []
    end.
Proof.
  intros Hmode.
  destruct (run_step h self cur_date cur_price filing_k filing_q news cur_record run_mode w)
    as (w' & tr & res & self' & Hrun & Hspec).
  { intros v ->. by destruct Hmode. }
  rewrite Hrun. simpl. intros Hin.
  apply step_spec_inv in Hspec as (res_r & obs_r & _ & _ & Hend).
  destruct Hend as [(e & _ & _ & _ & Hnone & _)
                   |(action & answer' & _ & _ & Hres & _ & Hone & Hcalls & Hmaint)].
  { rewrite Hnone in Hin. by apply elem_of_nil in Hin. }
  rewrite Hone in Hin. apply list_elem_of_singleton in Hin as ->. done.
Qed.

(** C7: when the portfolio answers that no feedback is pending, or answers
    feedback of magnitude zero, the step makes no reinforcement call, goes on
    to the maintenance call and returns normally. *)
Theorem no_signal_no_reinforcement {W} (h : handler W) (w : W) (self : LLMAgent)
    (cur_date : date) (cur_price : Qc) (filing_k filing_q news : pyval)
    (cur_record : option Qc) (run_mode : RunMode) (answer : option Feedback) :
  run_mode = Train \/ run_mode = Test ->
  let out := run h (step (cur_date, cur_price, filing_k, filing_q, news, cur_record, false)
                      run_mode self) w in
  answer ∈ feedback_answers (observe out.2) ->
  answer = None \/ (exists fb, answer = Some fb /\ feedback fb = 0) ->
  reinforcements (observe out.2) = [] /\
  out.1.1.1 = inr tt /\
  maintenance (observe out.2) = [brain self].
Proof.
  intros Hmode out Hin Hzero.
  destruct (step_feedback h w self cur_date cur_price filing_k filing_q news cur_record
              run_mode answer Hmode Hin) as (Hres & Hcalls & Hmaint).
  fold out in Hres, Hcalls, Hmaint.
  assert (consume_feedback out.1.1.2 answer = (inr tt, [])) as Hconsume.
  { destruct Hzero as [->|(fb & -> & Hfb)]; [done|].
    simpl. by rewrite bool_decide_false by (intros Hne; by apply Hne). }
  rewrite Hconsume in Hres, Hcalls, Hmaint. simpl in *.
  split; [done|]. split; [done|]. rewrite Hmaint. f_equal.
  subst out.
  destruct (run_step h self cur_date cur_price filing_k filing_q news cur_record run_mode w)
    as (w' & tr & res & self' & Hrun & Hspec).
  { intros v ->. by destruct Hmode. }
  rewrite Hrun. simpl.
  apply step_spec_inv in Hspec as (res_r & obs_r & Hr & _).
  by destruct (reflect_frame _ _ _ _ _ _ Hr) as [->|[r ->]].
Qed.

Lemma no_signal_no_reinforcement_witness :
  let out := run scripted (step (Examples.news_only Examples.day1 false) Test Examples.agent0)
               (Examples.answering Examples.bought
                  (Some {| feedback := 0; feedback_date := Examples.day1 |})) in
  reinforcements (observe out.2) = [] /\
  out.1.1.1 = inr tt /\
  maintenance (observe out.2) = [BrainRef 0].
Proof.
  refine (no_signal_no_reinforcement scripted _ Examples.agent0 Examples.day1 1%Qc
            (VDict ∅) (VDict ∅) (VList [VStr "rate hike"]) (Some (Q2Qc (1 # 2))) Test
            (Some {| feedback := 0; feedback_date := Examples.day1 |})
            (or_intror eq_refl) _ _).
  - vm_compute. left.
  - right. eexists. split; reflexivity.
Defined.

(** C2: when the portfolio answers feedback of nonzero magnitude for a date
    that has no entry in [reflection_result_series_dict], the step raises
    [KeyError]; it has made no reinforcement call and makes no maintenance
    call. *)
Theorem feedback_without_reflection {W} (h : handler W) (w : W) (self : LLMAgent)
    (cur_date : date) (cur_price : Qc) (filing_k filing_q news : pyval)
    (cur_record : option Qc) (run_mode : RunMode) (fb : Feedback) :
  run_mode = Train \/ run_mode = Test ->
  let out := run h (step (cur_date, cur_price, filing_k, filing_q, news, cur_record, false)
                      run_mode self) w in
  Some fb ∈ feedback_answers (observe out.2) ->
  feedback fb ≠ 0 ->
  reflection_result_series_dict out.1.1.2 !! feedback_date fb = None ->
  out.1.1.1 = inl KeyError /\
  reinforcements (observe out.2) = [] /\
  maintenance (observe out.2) = [].
Proof.
  intros Hmode out Hin Hfb Hdate.
  destruct (step_feedback h w self cur_date cur_price filing_k filing_q news cur_record
              run_mode (Some fb) Hmode Hin) as (Hres & Hcalls & Hmaint).
  fold out in Hres, Hcalls, Hmaint.
  assert (consume_feedback out.1.1.2 (Some fb) = (inl KeyError, [])) as Hconsume.
  { simpl. by rewrite bool_decide_true, Hdate. }
  rewrite Hconsume in Hres, Hcalls, Hmaint. done.
Qed.

Lemma feedback_without_reflection_witness :
  let out := run scripted (step (Examples.news_only Examples.day2 false) Train Examples.agent0)
               (Examples.answering (VDict ∅)
                  (Some {| feedback := 1; feedback_date := Examples.day1 |})) in
  out.1.1.1 = inl KeyError /\
  reinforcements (observe out.2) = [] /\
  maintenance (observe out.2) = [].
Proof.
  refine (feedback_without_reflection scripted _ Examples.agent0 Examples.day2 1%Qc
            (VDict ∅) (VDict ∅) (VList [VStr "rate hike"]) (Some (Q2Qc (1 # 2))) Train
            {| feedback := 1; feedback_date := Examples.day1 |}
            (or_introl eq_refl) _ _ _).
  - vm_compute. left.
  - simpl. lia.
  - vm_compute. reflexivity.
Defined.

(** A tier gives identifiers to send exactly when the record lists entries
    with a ["memory_index"] for it. *)
Lemma tier_ids_listed (cur_memory : pyval) (t : tier) :
  (exists sent, tier_ids cur_memory t = inr (Some sent)) <-> tier_listed cur_memory t.
Proof.
  split.
  - intros [sent (_ & recorded & Hrec & _)%tier_ids_sent]. by exists recorded.
  - intros (recorded & layer & items & Hlayer & Hitems & Hids).
    destruct cur_memory as [| | | |d]; try done.
    unfold tier_ids. simpl in *.
    destruct (d !! layer_index_name t) as [x|] eqn:Hx; [|done].
    injection Hlayer as ->.
    rewrite bool_decide_true by eauto. simpl. rewrite Hitems. simpl.
    destruct (collect_cur_ids_total _ _ Hids []) as [sent ->]. simpl. by eauto.
Qed.

(** A tier raises exactly when its key is not absent and what is under it
    is not a list of entries with a ["memory_index"]. *)
Lemma tier_ids_raises (cur_memory : pyval) (t : tier) :
  (exists e, tier_ids cur_memory t = inl e) <->
  ~ tier_absent cur_memory t /\ ~ tier_listed cur_memory t.
Proof.
  rewrite <- tier_ids_listed. unfold tier_absent. rewrite <- tier_ids_skipped.
  destruct (tier_ids cur_memory t) as [e|[sent|]]; split.
  - intros _. split; [done|]. by intros [sent [=]].
  - by eauto.
  - by intros [e [=]].
  - intros [_ []]. by eauto.
  - by intros [e [=]].
  - by intros [[] _].
Qed.

Lemma tier_ids_returns (cur_memory : pyval) (t : tier) :
  tier_absent cur_memory t \/ tier_listed cur_memory t ->
  exists o, tier_ids cur_memory t = inr o.
Proof.
  intros [Ha|[sent Hs]%tier_ids_listed]; [|by eauto].
  apply tier_ids_skipped in Ha. by eauto.
Qed.

(** The tiers up to the first that raises: every tier before it that gives
    identifiers gets its call, and no other tier does. *)
Lemma reinforce_tiers_stops (cur_memory : pyval) (ts : list tier) :
  exists called,
    called `sublist_of` ts /\
    Forall2 (fun t sent => tier_ids cur_memory t = inr (Some sent))
      called (reinforce_tiers cur_memory ts).2 /\
    ((reinforce_tiers cur_memory ts).1 = inr tt ->
     forall t, t ∈ ts -> tier_ids cur_memory t ≠ inr None -> t ∈ called) /\
    ((forall t, t ∈ ts -> exists o, tier_ids cur_memory t = inr o) ->
     (reinforce_tiers cur_memory ts).1 = inr tt) /\
    (forall before t after,
        ts = before ++ t :: after ->
        (forall t', t' ∈ before -> exists o, tier_ids cur_memory t' = inr o) ->
        (forall sent, tier_ids cur_memory t = inr (Some sent) -> t ∈ called) /\
        (forall e, tier_ids cur_memory t = inl e ->
           (reinforce_tiers cur_memory ts).1 = inl e /\
           forall t', t' ∈ called <->
                      t' ∈ before /\ exists sent, tier_ids cur_memory t' = inr (Some sent))).
Proof.
  induction ts as [|t ts (called & Hsub & Hcalls & Hall & Hok & Hsplit)]; simpl.
  - exists []. split; [constructor|]. split; [constructor|].
    split; [by intros _ t Ht%elem_of_nil|]. split; [done|].
    intros [|t0 before] t after; done.
  - destruct (tier_ids cur_memory t) as [e|[sent|]] eqn:Ht; simpl.
    + exists []. split; [apply sublist_nil_l|]. split; [constructor|]. split; [done|].
      split.
      { intros Hts. destruct (Hts t) as [o Ho]; [left|]. congruence. }
      intros [|t0 before] t1 after [= <- Hrest] Hbefore.
      * rewrite Ht. split; [done|]. intros e' [= <-]. split; [done|].
        intros t'. rewrite !elem_of_nil. tauto.
      * destruct (Hbefore t) as [o Ho]; [left|]. congruence.
    + exists (t :: called). split; [by apply sublist_skip|]. split; [by constructor|].
      split; [|split].
      * intros Hres t' [->|Ht']%elem_of_cons Hne; [left|right; by apply Hall].
      * intros Hts. apply Hok. intros t' Ht'. apply Hts. by right.
      * intros [|t0 before] t1 after [= <- Hrest] Hbefore.
        { rewrite Ht. split; [intros; left|done]. }
        destruct (Hsplit before t1 after Hrest) as [Hin Hraise].
        { intros t' Ht'. apply Hbefore. by right. }
        split; [intros s Hs; right; by eapply Hin|].
        intros e He. destruct (Hraise e He) as [Hres Hiff]. split; [done|].
        intros t'. rewrite !elem_of_cons, Hiff. split.
        -- intros [->|[Hb Hs]]; [by eauto|by eauto].
        -- intros [[->|Hb] Hs]; [by left|by right].
    + exists called. split; [by apply sublist_cons|]. split; [done|]. split; [|split].
      * intros Hres t' [->|Ht']%elem_of_cons Hne; [done|by apply Hall].
      * intros Hts. apply Hok. intros t' Ht'. apply Hts. by right.
      * intros [|t0 before] t1 after [= <- Hrest] Hbefore.
        { by rewrite Ht. }
        destruct (Hsplit before t1 after Hrest) as [Hin Hraise].
        { intros t' Ht'. apply Hbefore. by right. }
        split; [done|].
        intros e He. destruct (Hraise e He) as [Hres Hiff]. split; [done|].
        intros t'. rewrite elem_of_cons, Hiff. split.
        -- intros [Hb Hs]; by eauto.
        -- intros [[->|Hb] [s Hs]]; [congruence|by eauto].
Qed.

(** C1, amended: when the portfolio answers feedback of nonzero magnitude
    for a date whose record is [cur_memory], the reinforcement calls of the
    step are, in order, one for each tier of a sublist of Short, Mid, Long,
    Reflection (so at most one per tier); the key of such a tier is in the
    record, and its call carries the magnitude and the identifiers the
    record lists for the tier, each once.  A tier whose key is not in the
    record gets no call.  The tiers are gone through in order until one
    raises: a tier that lists entries with a ["memory_index"] (no entry at
    all included) gets its call when every tier before it is absent or lists
    such entries; at the first tier that is neither absent nor such a list
    the step raises, the calls made are those of the listed tiers before it,
    and no maintenance call is made.  When the step returns normally every
    tier whose key is in the record got its call; and it does return normally
    when the record is a dictionary whose tiers list entries with a
    ["memory_index"]. *)
Theorem reinforcement_per_tier {W} (h : handler W) (w : W) (self : LLMAgent)
    (cur_date : date) (cur_price : Qc) (filing_k filing_q news : pyval)
    (cur_record : option Qc) (run_mode : RunMode) (fb : Feedback) (cur_memory : pyval) :
  run_mode = Train \/ run_mode = Test ->
  let out := run h (step (cur_date, cur_price, filing_k, filing_q, news, cur_record, false)
                      run_mode self) w in
  Some fb ∈ feedback_answers (observe out.2) ->
  feedback fb ≠ 0 ->
  reflection_result_series_dict out.1.1.2 !! feedback_date fb = Some cur_memory ->
  exists called : list tier,
    called `sublist_of` all_tiers /\
    Forall2 (fun t sent =>
               py_contains (layer_index_name t) cur_memory = inr true /\
               sent.2 = feedback fb /\
               exists recorded,
                 recorded_ids cur_memory t recorded /\ deduplicated recorded sent.1)
      called (reinforcements (observe out.2)) /\
    (out.1.1.1 = inr tt ->
     forall t, py_contains (layer_index_name t) cur_memory = inr true -> t ∈ called) /\
    (forall d,
        cur_memory = VDict d ->
        (forall t, py_contains (layer_index_name t) cur_memory = inr true ->
                   exists recorded, recorded_ids cur_memory t recorded) ->
        out.1.1.1 = inr tt) /\
    (forall before t after,
        all_tiers = before ++ t :: after ->
        (forall t', t' ∈ before -> tier_absent cur_memory t' \/ tier_listed cur_memory t') ->
        (tier_listed cur_memory t -> t ∈ called) /\
        (~ tier_absent cur_memory t -> ~ tier_listed cur_memory t ->
           (exists e, out.1.1.1 = inl e) /\
           (forall t', t' ∈ called <-> t' ∈ before /\ tier_listed cur_memory t') /\
           maintenance (observe out.2) = [])).
Proof.
  intros Hmode out Hin Hfb Hdate.
  destruct (step_feedback h w self cur_date cur_price filing_k filing_q news cur_record
              run_mode (Some fb) Hmode Hin) as (Hres & Hcalls & Hmaint).
  fold out in Hres, Hcalls, Hmaint.
  assert (consume_feedback out.1.1.2 (Some fb) = reinforce_tiers cur_memory all_tiers)
    as Hconsume.
  { unfold consume_feedback. by rewrite bool_decide_true, Hdate. }
  rewrite Hconsume in Hres, Hcalls, Hmaint. simpl in Hcalls.
  destruct (reinforce_tiers_stops cur_memory all_tiers)
    as (called & Hsub & Hsent & Hall & Hok & Hsplit).
  exists called. split; [done|]. split; [|split; [|split]].
  - rewrite Hcalls. apply Forall2_fmap_r.
    eapply Forall2_impl; [exact Hsent|].
    intros t sent Ht. simpl. apply tier_ids_sent in Ht as [Hkey Hrec]. done.
  - rewrite Hres. intros Hreturned t Hkey. apply Hall; [done| |].
    + destruct t; repeat constructor.
    + rewrite tier_ids_skipped. congruence.
  - intros d -> Hrec. rewrite Hres. apply Hok.
    intros t _. apply tier_ids_total, Hrec.
  - intros before t after Htiers Hbefore.
    destruct (Hsplit before t after Htiers) as [Hcalled Hraise].
    { intros t' Ht'. by apply tier_ids_returns, Hbefore. }
    split.
    + intros [sent Hs]%tier_ids_listed. by eapply Hcalled.
    + intros Habsent Hlisted.
      destruct (proj2 (tier_ids_raises cur_memory t)) as [e He]; [done|].
      destruct (Hraise e He) as [Hraised Hiff].
      rewrite Hres, Hraised in *. split; [by eauto|]. split; [|done].
      intros t'. rewrite Hiff. by rewrite tier_ids_listed.
Qed.

Lemma reinforcement_per_tier_witness :
  let out := run scripted (step (Examples.news_only Examples.day1 false) Test Examples.agent0)
               (Examples.answering Examples.bought
                  (Some {| feedback := -1; feedback_date := Examples.day1 |})) in
  reinforcements (observe out.2) = [([VInt 1; VInt 2], -1)] /\
  exists called : list tier,
    called `sublist_of` all_tiers /\
    Forall2 (fun t sent =>
               py_contains (layer_index_name t) Examples.bought = inr true /\
               sent.2 = -1 /\
               exists recorded,
                 recorded_ids Examples.bought t recorded /\ deduplicated recorded sent.1)
      called (reinforcements (observe out.2)) /\
    (out.1.1.1 = inr tt ->
     forall t, py_contains (layer_index_name t) Examples.bought = inr true -> t ∈ called) /\
    (forall d,
        Examples.bought = VDict d ->
        (forall t, py_contains (layer_index_name t) Examples.bought = inr true ->
                   exists recorded, recorded_ids Examples.bought t recorded) ->
        out.1.1.1 = inr tt) /\
    (forall before t after,
        all_tiers = before ++ t :: after ->
        (forall t', t' ∈ before ->
                    tier_absent Examples.bought t' \/ tier_listed Examples.bought t') ->
        (tier_listed Examples.bought t -> t ∈ called) /\
        (~ tier_absent Examples.bought t -> ~ tier_listed Examples.bought t ->
           (exists e, out.1.1.1 = inl e) /\
           (forall t', t' ∈ called <-> t' ∈ before /\ tier_listed Examples.bought t') /\
           maintenance (observe out.2) = [])).
Proof.
  split; [vm_compute; reflexivity|].
  refine (reinforcement_per_tier scripted _ Examples.agent0 Examples.day1 1%Qc
            (VDict ∅) (VDict ∅) (VList [VStr "rate hike"]) (Some (Q2Qc (1 # 2))) Test
            {| feedback := -1; feedback_date := Examples.day1 |} Examples.bought
            (or_intror eq_refl) _ _ _).
  - vm_compute. left.
  - simpl. lia.
  - vm_compute. reflexivity.
Defined.

(** C1 as stated fails: a record that has the key of the Short tier with
    no entry under it gets a reinforcement call with no identifier. *)
Lemma reinforcement_with_no_identifier :
  let r := VDict {[ "short_memory_index" := VList [] ]} in
  let out := run scripted (step (Examples.news_only Examples.day1 false) Train Examples.agent0)
               (Examples.answering r
                  (Some {| feedback := 1; feedback_date := Examples.day1 |})) in
  reflection_result_series_dict out.1.1.2 !! Examples.day1 = Some r /\
  recorded_ids r Short [] /\
  reinforcements (observe out.2) = [([], 1)].
Proof.
  split; [vm_compute; reflexivity|]. split; [|vm_compute; reflexivity].
  exists (VList []), []. split; [vm_compute; reflexivity|]. split; [reflexivity|constructor].
Qed.

(** A tier whose key is in the record does not always get its call: below
    the Short tier gets its call, the entry of the Mid tier has no
    ["memory_index"], the step raises [KeyError], and the Long tier, whose key
    is in the record, gets no call; no maintenance call is made. *)
Lemma reinforcement_stops_at_a_raising_tier :
  let r := VDict {[ "short_memory_index" := VList [Examples.entry 1];
                    "middle_memory_index" := VList [VDict ∅];
                    "long_memory_index" := VList [Examples.entry 3] ]} in
  let out := run scripted (step (Examples.news_only Examples.day1 false) Train Examples.agent0)
               (Examples.answering r
                  (Some {| feedback := 1; feedback_date := Examples.day1 |})) in
  reflection_result_series_dict out.1.1.2 !! Examples.day1 = Some r /\
  py_contains (layer_index_name Long) r = inr true /\
  out.1.1.1 = inl KeyError /\
  reinforcements (observe out.2) = [([VInt 1], 1)] /\
  maintenance (observe out.2) = [].
Proof. vm_compute. done. Qed.

(** ** The access counter and checkpoints *)

(** No step assigns [access_counter]. *)
Lemma step_access_counter {W} (h : handler W) (w : W) (self : LLMAgent)
    (market_info : market_info_type) (run_mode : RunMode) :
  access_counter (run h (step market_info run_mode self) w).1.1.2 = access_counter self.
Proof.
  destruct market_info as [[[[[[cur_date cur_price] filing_k] filing_q] news] cur_record] done].
  destruct run_mode as [| |v]; [| |done].
  all: destruct done; [done|].
  all: match goal with
       | |- context [step ?mi ?m ?s] =>
           destruct (run_step h self cur_date cur_price filing_k filing_q news cur_record m w)
             as (w' & tr & res & self' & Hrun & Hspec); [done|]
       end.
  all: rewrite Hrun; simpl.
  all: apply step_spec_inv in Hspec as (res_r & obs_r & Hr & _).
  all: by destruct (reflect_frame _ _ _ _ _ _ Hr) as [->|[r ->]].
Qed.

(** Saving pickles [make_state_dict self] once, unless the target exists
    and [force] is not set. *)
Lemma run_save_checkpoint {W} (h : handler W) (w : W) (self : LLMAgent)
    (path : string) (force : bool) :
  let saved := run h (save_checkpoint path force self) w in
  let target := os_path_join path (agent_name self) in
  saved.1.1.2 = self /\
  ((saved.1.1.1 = inl FileExistsError /\ pickled saved.2 = []) \/
   (saved.1.1.1 = inr tt /\
    pickled saved.2 = [(os_path_join target "state_dict.pkl", make_state_dict self)])).
Proof.
  unfold save_checkpoint. run_steps. name_answer h.
  destruct ans as [|]; [destruct force|]; run_steps; repeat name_answer h; by eauto.
Qed.

(** C6, amended: the access-counter mapping of an agent is empty when the
    agent is constructed; no step changes it, whatever reinforcement calls
    the step makes; and every dictionary [save_checkpoint] pickles holds the
    mapping, a save that returns normally pickling exactly one. *)
Theorem access_counter_kept_and_saved {W} (h : handler W) (w : W) (self : LLMAgent)
    (market_info : market_info_type) (run_mode : RunMode) (path : string) (force : bool)
    (name symbol character : string) (brain_db : BrainDB) (k : Z) (end_point : string)
    (config : pyval) (window : Z) :
  access_counter
    (run h (__init__ name symbol character brain_db k end_point config window) w).1.1 = []
  /\ access_counter (run h (step market_info run_mode self) w).1.1.2 = access_counter self
  /\ (forall p obj,
        (p, obj) ∈ pickled (run h (save_checkpoint path force self) w).2 ->
        sd_access_counter obj = access_counter self)
  /\ ((run h (save_checkpoint path force self) w).1.1.1 = inr tt ->
      exists p, pickled (run h (save_checkpoint path force self) w).2
                = [(p, make_state_dict self)]).
Proof.
  split; [done|].
  split; [apply step_access_counter|].
  destruct (run_save_checkpoint h w self path force) as (_ & [[Hres ->]|[Hres ->]]).
  - split; [by intros p obj Hin%elem_of_nil|]. congruence.
  - split; [|by eauto]. intros p obj [= _ ->]%list_elem_of_singleton. done.
Qed.

(** C6 as stated fails: the step below makes a reinforcement call for the
    identifiers 1 and 2 and the access-counter mapping of the agent has no
    entry afterwards. *)
Lemma reinforcement_not_counted :
  let out := run scripted (step (Examples.news_only Examples.day1 false) Test Examples.agent0)
               (Examples.answering Examples.bought
                  (Some {| feedback := -1; feedback_date := Examples.day1 |})) in
  reinforcements (observe out.2) = [([VInt 1; VInt 2], -1)] /\
  access_counter out.1.1.2 = [].
Proof. vm_compute. done. Qed.

(** What [load_checkpoint] builds from the unpickled dictionary: the saved
    attributes, except [look_back_window_size], which is the default of the
    constructor, and [chat_end_point_config] when [None] was saved. *)
Lemma run_load_checkpoint {W} (h : handler W) (w : W) (path : string) :
  let restored := run h (load_checkpoint path) w in
  exists state_dict,
    unpickled restored.2 = [(os_path_join path "state_dict.pkl", state_dict)] /\
    agent_name restored.1.1 = sd_agent_name state_dict /\
    trading_symbol restored.1.1 = sd_trading_symbol state_dict /\
    character_string restored.1.1 = sd_character_string state_dict /\
    top_k restored.1.1 = sd_top_k state_dict /\
    counter restored.1.1 = sd_counter state_dict /\
    chat_end_point_name restored.1.1 = sd_chat_end_point_name state_dict /\
    (sd_chat_end_point_config state_dict ≠ VNone ->
     chat_end_point_config restored.1.1 = sd_chat_end_point_config state_dict) /\
    portfolio restored.1.1 = sd_portfolio state_dict /\
    chat_end_point restored.1.1 = sd_chat_end_point state_dict /\
    reflection_result_series_dict restored.1.1 = sd_reflection_result_series_dict state_dict /\
    access_counter restored.1.1 = sd_access_counter state_dict /\
    look_back_window_size restored.1.1 = default_look_back_window_size.
Proof.
  unfold load_checkpoint, __init__. simpl.
  exists (h (pickle_load (os_path_join path "state_dict.pkl")) w).1.
  repeat split. intros Hconfig. by rewrite bool_decide_false.
Qed.

(** A restore that unpickles what a save pickled gives back the history of
    reflection results, the access counters, the portfolio, the end point and
    the scalars of the saved agent, except the look-back window, which is the
    default of the constructor. *)
Lemma checkpoint_round_trip {W} (h : handler W) (w w' : W) (self : LLMAgent)
    (path path' : string) (force : bool) :
  let saved := run h (save_checkpoint path force self) w in
  let restored := run h (load_checkpoint path') w' in
  saved.1.1.1 = inr tt ->
  unpickled restored.2 = pickled saved.2 ->
  reflection_result_series_dict restored.1.1 = reflection_result_series_dict self /\
  access_counter restored.1.1 = access_counter self /\
  agent_name restored.1.1 = agent_name self /\
  trading_symbol restored.1.1 = trading_symbol self /\
  character_string restored.1.1 = character_string self /\
  top_k restored.1.1 = top_k self /\
  counter restored.1.1 = counter self /\
  chat_end_point_name restored.1.1 = chat_end_point_name self /\
  portfolio restored.1.1 = portfolio self /\
  chat_end_point restored.1.1 = chat_end_point self /\
  look_back_window_size restored.1.1 = default_look_back_window_size.
Proof.
  intros saved restored Hsaved Hsame.
  destruct (run_save_checkpoint h w self path force) as (_ & [[Hres _]|[_ Hpickled]]).
  { fold saved in Hres. congruence. }
  destruct (run_load_checkpoint h w' path')
    as (obj & Hun & Hname & Hsym & Hchar & Htop & Hcount & Hchat & _ & Hport & Hend & Hdict
        & Hacc & Hlook).
  fold saved in Hpickled. fold restored in Hun, Hname, Hsym, Hchar, Htop, Hcount, Hchat,
    Hport, Hend, Hdict, Hacc, Hlook.
  rewrite Hun, Hpickled in Hsame. injection Hsame as _ ->.
  by rewrite Hname, Hsym, Hchar, Htop, Hcount, Hchat, Hport, Hend, Hdict, Hacc, Hlook.
Qed.

(** C5 at the failing input: the agent has a look-back window of 10; it is
    saved, and the checkpoint restored; the history of reflection results,
    the access counters and the other scalars are as saved, and the look-back
    window is 7. *)
Theorem restore_resets_look_back_window_size :
  RoundTrip.saved.1.1.1 = inr tt /\
  unpickled RoundTrip.restored.2
    = [("checkpoints/agent/state_dict.pkl", make_state_dict RoundTrip.agent1)] /\
  reflection_result_series_dict RoundTrip.restored.1.1
    = reflection_result_series_dict RoundTrip.agent1 /\
  access_counter RoundTrip.restored.1.1 = access_counter RoundTrip.agent1 /\
  top_k RoundTrip.restored.1.1 = top_k RoundTrip.agent1 /\
  counter RoundTrip.restored.1.1 = counter RoundTrip.agent1 /\
  look_back_window_size RoundTrip.agent1 = 10 /\
  look_back_window_size RoundTrip.restored.1.1 = 7.
Proof. vm_compute. done. Qed.

(** ** Two steps from end to end *)

(** A Train step on 2024-01-02 with no documents, the news ["rate hike"]
    and a realized outcome of one half: one write, to the Short tier; the
    action is direction 1, quantity 1; maintenance is called once. *)
Example train_step_with_news :
  let out := run scripted (step (Examples.news_only Examples.day1 false) Train Examples.agent0)
               (Examples.answering (VDict ∅) None) in
  out.1.1.1 = inr tt /\
  document_writes (observe out.2) = [(Short, "TSLA", Examples.day1, VList [VStr "rate hike"])] /\
  actions (observe out.2) = [{[ "direction" := 1; "quantity" := 1 ]}] /\
  reinforcements (observe out.2) = [] /\
  maintenance (observe out.2) = [BrainRef 0].
Proof. vm_compute. done. Qed.

(** Feedback of magnitude -1 for 2024-01-02 arrives on the next day; the
    record of 2024-01-02 lists the Short memories "s1" and "s2" and no other
    tier: one reinforcement call, with these two identifiers and -1. *)
Example feedback_on_a_later_step :
  let r := VDict {[ "short_memory_index" :=
                      VList [VDict {[ "memory_index" := VStr "s1" ]};
                             VDict {[ "memory_index" := VStr "s2" ]}] ]} in
  let self := set_reflection_result Examples.day1 r Examples.agent0 in
  let out := run scripted (step (Examples.news_only Examples.day2 false) Train self)
               (Examples.answering (VDict ∅)
                  (Some {| feedback := -1; feedback_date := Examples.day1 |})) in
  out.1.1.1 = inr tt /\
  reinforcements (observe out.2) = [([VStr "s1"; VStr "s2"], -1)] /\
  maintenance (observe out.2) = [BrainRef 0].
Proof. vm_compute. done. Qed.

(** ** Calls a method can make *)

Lemma calls_within_weaken {A} (P Q : call -> Prop) (p : prog A) :
  (forall c, P c -> Q c) -> calls_within P p -> calls_within Q p.
Proof.
  intros HPQ. induction p as [a|c k IH]; simpl; [done|].
  intros [Hc Hk]. split; [by apply HPQ|]. intros r. by apply IH.
Qed.

Lemma calls_within_pbind {A B} (P : call -> Prop) (p : prog A) (f : A -> prog B) :
  calls_within P p -> (forall a, calls_within P (f a)) -> calls_within P (pbind p f).
Proof.
  intros Hp Hf. induction p as [a|c k IH]; simpl; [apply Hf|].
  destruct Hp as [Hc Hk]. split; [done|]. intros r. by apply IH.
Qed.

Lemma calls_within_bind {A B} (P : call -> Prop) (m : M A) (f : A -> M B) (self : LLMAgent) :
  calls_within P (m self) ->
  (forall a self', calls_within P (f a self')) ->
  calls_within P (bind m f self).
Proof.
  intros Hm Hf. unfold bind. apply calls_within_pbind; [done|].
  intros [[e|a] self']; simpl; [done|apply Hf].
Qed.

Lemma calls_within_invoke (P : call -> Prop) (c : call) (self : LLMAgent) :
  P c -> calls_within P (invoke c self).
Proof. intros Hc. unfold invoke. simpl. by split. Qed.

(** The calls of a run are calls the program can make. *)
Lemma calls_within_run {W A} (h : handler W) (P : call -> Prop) (p : prog A) (w : W) :
  calls_within P p -> Forall P (calls_of (run h p w).2).
Proof.
  revert w. induction p as [a|c k IH]; intros w; simpl; [constructor|].
  intros [Hc Hk]. constructor; [done|]. by apply IH.
Qed.

(** Goes through a method, one operation at a time. *)
Ltac within_step :=
  match goal with
  | |- calls_within _ (bind _ _ _) => apply calls_within_bind; [|intros ? ?]
  | |- calls_within _ (ret _ _) => exact I
  | |- calls_within _ (raise _ _) => exact I
  | |- calls_within _ (lift _ _) => exact I
  | |- calls_within _ (get_self _) => exact I
  | |- calls_within _ (put_self _ _) => exact I
  | |- calls_within ?P (invoke ?c ?s) => exact (calls_within_invoke P c s I)
  | |- calls_within _ (match ?x with _ => _ end _) => destruct x
  end.

Ltac within := repeat within_step.


(** ** A step as the sequence of its phases *)

(** The run of a step that is not done, in a valid run mode, phase by
    phase: ingestion and market update, reflection, the decision of the
    action, and phases 6 to 8. *)
Lemma step_runs {W} (h : handler W) (w : W) (self : LLMAgent)
    (cur_date : date) (cur_price : Qc) (filing_k filing_q news : pyval)
    (cur_record : option Qc) (run_mode : RunMode) :
  run_mode = Train \/ run_mode = Test ->
  let o1 := run h (_handling_filings cur_date filing_q filing_k self) w in
  let o2 := run h (_handling_news cur_date news self) o1.1.2 in
  let market := portfolio_update_market_info (portfolio self) cur_price cur_date in
  let o3 := h market o2.1.2 in
  let o4 := run h (_reflect cur_date run_mode cur_record self) o3.2 in
  let before := o1.2 ++ o2.2 ++ Ev market o3.1 :: o4.2 in
  run h (step (cur_date, cur_price, filing_k, filing_q, news, cur_record, false)
           run_mode self) w
  = match o4.1.1.1 with
    | inl e => ((inl e, o4.1.1.2), o4.1.2, before)
    | inr _ =>
        match decide_action run_mode cur_date cur_record o4.1.1.2 with
        | inl e => ((inl e, o4.1.1.2), o4.1.2, before)
        | inr action =>
            let o5 := run h (act_program action o4.1.1.2) o4.1.2 in
            (o5.1, before ++ o5.2)
        end
    end.
Proof.
  intros Hmode. unfold step, act_program.
  remember (_reflect cur_date run_mode cur_record) as reflecting eqn:Hreflecting.
  remember _portfolio_step as acting eqn:Hacting.
  remember _update_access_counter as counting eqn:Hcounting.
  destruct (run_handling_filings h self cur_date filing_q filing_k w)
    as (w1 & t1 & R1 & _).
  destruct (run_handling_news h self cur_date news w1) as (w2 & t2 & R2 & _).
  assert (forall X (x y : X), match run_mode with
                              | Train | Test => x
                              | NotARunMode _ => y
                              end = x) as Hvalid.
  { intros X x y. by destruct Hmode as [-> | ->]. }
  simpl. rewrite Hvalid, R1. simpl. rewrite R2. simpl.
  rewrite run_bind, R1. simpl. rewrite run_bind, R2. simpl.
  destruct (h (portfolio_update_market_info (portfolio self) cur_price cur_date) w2)
    as [r3 w3] eqn:R3.
  simpl. rewrite run_bind.
  destruct (run h (reflecting self) w3) as [[[res self'] w4] t4] eqn:R4. simpl.
  destruct res as [e|[]]; simpl; [done|].
  rewrite run_bind.
  assert (run h (match run_mode with
                 | Train => lift (_construct_train_actions cur_record)
                 | _ =>
                     let* self := get_self in
                     match reflection_result_series_dict self !! cur_date with
                     | None => raise KeyError
                     | Some test_reflection_result =>
                         lift (__process_test_action test_reflection_result)
                     end
                 end self') w4
          = ((decide_action run_mode cur_date cur_record self', self'), w4, [])) as ->.
  { unfold decide_action.
    destruct Hmode as [-> | ->]; [done|].
    run_steps. by destruct (reflection_result_series_dict self' !! cur_date). }
  simpl. destruct (decide_action run_mode cur_date cur_record self') as [e|action]; simpl.
  - by rewrite app_nil_r.
  - destruct (run h _ w4) as [[[res5 self5] w5] t5]. simpl.
    by rewrite <- !app_assoc.
Qed.

(** ** Retrieval and reflection, call by call *)

Lemma quiet_retrieve (tr : list event) :
  Forall quiet_call (calls_of tr) -> retrieve tr = [].
Proof.
  induction tr as [|[c r] tr IH]; [done|].
  intros [Hc Htr]%Forall_cons. unfold retrieve. simpl.
  destruct c; try done; by apply IH.
Qed.

Lemma retrieve_app (t1 t2 : list event) : retrieve (t1 ++ t2) = retrieve t1 ++ retrieve t2.
Proof. apply omap_app. Qed.

Lemma quiet_run {W A} (h : handler W) (p : prog A) (w : W) :
  calls_within quiet_call p -> retrieve (run h p w).2 = [].
Proof. intros Hp. by apply quiet_retrieve, calls_within_run. Qed.

Lemma handling_filings_quiet (cur_date : date) (filing_q filing_k : pyval) (self : LLMAgent) :
  calls_within quiet_call (_handling_filings cur_date filing_q filing_k self).
Proof. unfold _handling_filings. within. Qed.

Lemma handling_news_quiet (cur_date : date) (news : pyval) (self : LLMAgent) :
  calls_within quiet_call (_handling_news cur_date news self).
Proof. unfold _handling_news. within. Qed.

Lemma act_program_quiet (action : gmap string Z) (self : LLMAgent) :
  calls_within quiet_call (act_program action self).
Proof.
  unfold act_program, _portfolio_step, _update_access_counter,
    __update_short_memory_access_counter, __update_mid_memory_access_counter,
    __update_long_memory_access_counter, __update_reflection_memory_access_counter,
    __update_access_counter_sub.
  within.
Qed.

Section Reflecting.
Context {W : Type} (h : handler W).

(** Splits on what the control flow of a run looks at. *)
Ltac split_flow :=
  repeat (run_steps; try name_answer h;
          match goal with
          | |- context [match ?x with _ => _ end] => destruct x eqn:?
          end);
  run_steps.

(** Reflection in Train mode: the four queries, then the reasoning call on
    their answers and the realized outcome. *)
Lemma reflect_retrieves_train (cur_date : date) (cur_record : option Qc)
    (self : LLMAgent) (w : W) :
  exists short mid long refl r,
    retrieve (run h (_reflect cur_date Train cur_record self) w).2 =
      four_queries self short mid long refl ++
      [Reasoned cur_date (trading_symbol self) Train (guardrail_endpoint self)
         (memories_of short mid long refl) (future_record cur_record) r].
Proof.
  unfold _reflect, __reflection_on_record, __query_info_for_reflection.
  run_steps. do 5 name_answer h.
  exists ans, ans0, ans1, ans2, ans3.
  split_flow; reflexivity.
Qed.

(** Reflection in Test mode: the four queries and the momentum request;
    then, unless reading the momentum raised, the reasoning call on the
    answers and the momentum. *)
Lemma reflect_retrieves_test (cur_date : date) (cur_record : option Qc)
    (self : LLMAgent) (w : W) :
  let out := run h (_reflect cur_date Test cur_record self) w in
  exists short mid long refl cur_moment_ret,
    (exists e,
        moment_of cur_moment_ret = inl e /\
        out.1.1.1 = inl e /\ out.1.1.2 = self /\
        observe out.2 = [] /\
        retrieve out.2 =
          four_queries self short mid long refl ++
          [MomentAsked (portfolio self) 2 cur_moment_ret])
    \/
    (exists cur_moment r,
        moment_of cur_moment_ret = inr cur_moment /\
        retrieve out.2 =
          four_queries self short mid long refl ++
          [MomentAsked (portfolio self) 2 cur_moment_ret;
           Reasoned cur_date (trading_symbol self) Test (guardrail_endpoint self)
             (memories_of short mid long refl) (momentum cur_moment) r]).
Proof.
  unfold _reflect, __reflection_on_record, __query_info_for_reflection.
  run_steps. do 5 name_answer h.
  exists ans, ans0, ans1, ans2, ans3. unfold moment_of.
  destruct (bool_decide (ans3 ≠ VNone)) eqn:Hnone; run_steps.
  - destruct (py_getitem ans3 "moment") as [e|cur_moment] eqn:Hmoment; run_steps.
    + left. by exists e.
    + right. name_answer h. exists cur_moment, ans4. split; [done|].
      split_flow; reflexivity.
  - right. name_answer h. exists VNone, ans4. split; [done|].
    split_flow; reflexivity.
Qed.

(** What reflection writes to the Reflection tier is the rationale of the
    answer of the reasoning call. *)
Lemma reflect_writes_rationale (cur_date : date) (run_mode : RunMode)
    (cur_record : option Qc) (self : LLMAgent) (w : W) :
  run_mode = Train \/ run_mode = Test ->
  let obs := observe (run h (_reflect cur_date run_mode cur_record self) w).2 in
  reflection_writes obs = reflection_answers obs ≫= rationale self cur_date.
Proof.
  unfold _reflect, __reflection_on_record, __query_info_for_reflection, rationale.
  intros [-> | ->]; run_steps; do 5 name_answer h.
  - split_flow; simpl; rewrite ?app_nil_r;
      repeat match goal with H : _ = _ |- _ => rewrite H end; try done.
  - destruct (bool_decide (ans3 ≠ VNone)); run_steps;
      [destruct (py_getitem ans3 "moment"); run_steps; [done|]|];
      name_answer h;
      split_flow; simpl; rewrite ?app_nil_r;
      repeat match goal with H : _ = _ |- _ => rewrite H end; try done.
Qed.
End Reflecting.

(** What a step shows, in terms of the run of its reflection phase: the
    step ends when reflection raises or when the action cannot be decided,
    and goes through phases 6 to 8 otherwise. *)
Lemma step_observed {W} (h : handler W) (w : W) (self : LLMAgent)
    (cur_date : date) (cur_price : Qc) (filing_k filing_q news : pyval)
    (cur_record : option Qc) (run_mode : RunMode) :
  run_mode = Train \/ run_mode = Test ->
  let out := run h (step (cur_date, cur_price, filing_k, filing_q, news, cur_record, false)
                      run_mode self) w in
  let ingest := ingest_observations self cur_date cur_price filing_k filing_q news in
  exists w3,
    let o4 := run h (_reflect cur_date run_mode cur_record self) w3 in
    out.1.1.2 = o4.1.1.2 /\
    retrieve out.2 = retrieve o4.2 /\
    ((exists e,
         out.1.1.1 = inl e /\
         (o4.1.1.1 = inl e \/
          (o4.1.1.1 = inr tt /\
           decide_action run_mode cur_date cur_record o4.1.1.2 = inl e)) /\
         observe out.2 = ingest ++ observe o4.2)
     \/
     (exists action answer,
         o4.1.1.1 = inr tt /\
         decide_action run_mode cur_date cur_record o4.1.1.2 = inr action /\
         out.1.1.1 = (consume_feedback o4.1.1.2 answer).1 /\
         observe out.2 =
           ingest ++ observe o4.2 ++ act_observations o4.1.1.2 action answer)).
Proof.
  intros Hmode out ingest. subst out.
  rewrite (step_runs h w self cur_date cur_price filing_k filing_q news cur_record
             run_mode Hmode).
  remember (_reflect cur_date run_mode cur_record) as reflecting eqn:Hreflecting.
  remember act_program as acting eqn:Hacting.
  destruct (run_handling_filings h self cur_date filing_q filing_k w)
    as (w1 & t1 & R1 & O1).
  pose proof (quiet_run h _ w (handling_filings_quiet cur_date filing_q filing_k self)) as Q1.
  rewrite R1 in Q1 |- *. simpl in Q1 |- *.
  destruct (run_handling_news h self cur_date news w1) as (w2 & t2 & R2 & O2).
  pose proof (quiet_run h _ w1 (handling_news_quiet cur_date news self)) as Q2.
  rewrite R2 in Q2 |- *. simpl in Q2 |- *.
  destruct (h (portfolio_update_market_info (portfolio self) cur_price cur_date) w2)
    as [r3 w3]. simpl in r3. destruct r3. simpl.
  exists w3.
  destruct (run h (reflecting self) w3) as [[[res self'] w4] t4] eqn:R4. simpl.
  clear Hreflecting R4.
  assert (forall t,
             retrieve (t1 ++ t2 ++
                       Ev (portfolio_update_market_info (portfolio self) cur_price cur_date) tt
                       :: t) = retrieve t) as Hquiet.
  { intros t. rewrite !retrieve_app, Q1, Q2. done. }
  assert (forall t,
             observe (t1 ++ t2 ++
                      Ev (portfolio_update_market_info (portfolio self) cur_price cur_date) tt
                      :: t) = ingest ++ observe t) as Hshown.
  { intros t. rewrite !observe_app, O1, O2. subst ingest. unfold ingest_observations.
    by rewrite <- !app_assoc. }
  destruct res as [e|[]]; simpl.
  { split; [done|]. split; [apply Hquiet|]. left. exists e. by rewrite Hshown; eauto. }
  destruct (decide_action run_mode cur_date cur_record self') as [e|action] eqn:Hact; simpl.
  { split; [done|]. split; [apply Hquiet|]. left. exists e. by rewrite Hshown; eauto. }
  destruct (run_act h self' action w4) as (w5 & t5 & answer & R5 & O5).
  pose proof (quiet_run h _ w4 (act_program_quiet action self')) as Q5.
  subst acting.
  change (run h ((_portfolio_step action;; _update_access_counter;;
                  let* self := get_self in invoke (brain_step (brain self))) self') w4)
    with (run h (act_program action self') w4) in R5.
  rewrite R5 in Q5 |- *. simpl in Q5 |- *.
  split; [done|]. split.
  { rewrite app_assoc, retrieve_app, Q5, app_nil_r, <- app_assoc. apply Hquiet. }
  right. exists action, answer. split; [done|]. split; [done|]. split; [done|].
  rewrite <- !app_assoc. simpl. rewrite Hshown, observe_app, O5. done.
Qed.

(** ** Reflection *)

Lemma act_observations_no_reflection_write (self : LLMAgent) (action : gmap string Z)
    (answer : option Feedback) :
  reflection_writes (act_observations self action answer) = [].
Proof.
  unfold act_observations, reflection_writes. simpl. rewrite omap_app.
  rewrite omap_reinforced_none by done. by destruct (consume_feedback self answer).1.
Qed.

Lemma ingest_no_reflection_write (self : LLMAgent) (cur_date : date) (cur_price : Qc)
    (filing_k filing_q news : pyval) :
  reflection_writes (ingest_observations self cur_date cur_price filing_k filing_q news) = [].
Proof. unfold ingest_observations. by repeat case_bool_decide. Qed.

(** A step writes to the Reflection tier only the rationale of the answer
    of its reasoning call: the ["summary_reason"] of the answer, under the
    symbol and the current date, when the answer is true and has one, and
    nothing otherwise. *)
Lemma step_reflection_writes {W} (h : handler W) (w : W) (self : LLMAgent)
    (cur_date : date) (cur_price : Qc) (filing_k filing_q news : pyval)
    (cur_record : option Qc) (run_mode : RunMode) :
  run_mode = Train \/ run_mode = Test ->
  let obs := observe (run h (step (cur_date, cur_price, filing_k, filing_q, news,
                                    cur_record, false) run_mode self) w).2 in
  reflection_writes obs = reflection_answers obs ≫= rationale self cur_date.
Proof.
  intros Hmode obs.
  destruct (step_observed h w self cur_date cur_price filing_k filing_q news cur_record
              run_mode Hmode) as (w3 & _ & _ & Hend).
  pose proof (reflect_writes_rationale h cur_date run_mode cur_record self w3 Hmode)
    as Hreflect.
  cbv zeta in Hreflect, Hend.
  remember (run h (_reflect cur_date run_mode cur_record self) w3) as o4 eqn:Ho4.
  clear Ho4.
  destruct (ingest_quiet self cur_date cur_price filing_k filing_q news)
    as (_ & _ & _ & Hanswers & _).
  pose proof (ingest_no_reflection_write self cur_date cur_price filing_k filing_q news)
    as Hwrites.
  unfold reflection_writes, reflection_answers in *.
  destruct Hend as [(e & _ & _ & Hshown)|(action & answer & _ & _ & _ & Hshown)];
    subst obs; rewrite Hshown, !omap_app, Hanswers, Hwrites, !app_nil_l; [done|].
  pose proof (act_observations_no_reflection_write o4.1.1.2 action answer) as Hact.
  destruct (act_contributions o4.1.1.2 action answer) as (_ & Hact' & _).
  unfold reflection_writes, reflection_answers in *.
  by rewrite Hact, Hact', !app_nil_r.
Qed.

(** ** Ingestion *)

Lemma ingest_memory_writes (self : LLMAgent) (cur_date : date) (cur_price : Qc)
    (filing_k filing_q news : pyval) :
  memory_writes (ingest_observations self cur_date cur_price filing_k filing_q news) =
    (if bool_decide (filing_q ≠ VDict ∅)
     then [(Mid, trading_symbol self, cur_date, filing_q)] else []) ++
    (if bool_decide (filing_k ≠ VDict ∅)
     then [(Long, trading_symbol self, cur_date, filing_k)] else []) ++
    (if bool_decide (news ≠ VDict ∅)
     then [(Short, trading_symbol self, cur_date, news)] else []).
Proof. unfold ingest_observations. by repeat case_bool_decide. Qed.

Lemma reflect_memory_writes (run_mode : RunMode) (cur_date : date) (self self' : LLMAgent)
    (res : result unit) (obs : list observation) :
  reflect_spec run_mode cur_date self res self' obs ->
  memory_writes obs = (fun x => (Reflection, x.1.1, x.1.2, x.2)) <$> reflection_writes obs.
Proof.
  intros [e|x r e Ht Hd|x r adds [->|[text ->]]]; done.
Qed.

Lemma act_observations_no_memory_write (self : LLMAgent) (action : gmap string Z)
    (answer : option Feedback) :
  memory_writes (act_observations self action answer) = [].
Proof.
  unfold act_observations, memory_writes. simpl. rewrite omap_app.
  rewrite omap_reinforced_none by done. by destruct (consume_feedback self answer).1.
Qed.

(** The writes of a step are those of its payloads followed by those to
    the Reflection tier. *)
Lemma step_memory_writes {W} (h : handler W) (w : W) (self : LLMAgent)
    (cur_date : date) (cur_price : Qc) (filing_k filing_q news : pyval)
    (cur_record : option Qc) (run_mode : RunMode) :
  run_mode = Train \/ run_mode = Test ->
  let obs := observe (run h (step (cur_date, cur_price, filing_k, filing_q, news,
                                    cur_record, false) run_mode self) w).2 in
  memory_writes obs =
    (if bool_decide (filing_q ≠ VDict ∅)
     then [(Mid, trading_symbol self, cur_date, filing_q)] else []) ++
    (if bool_decide (filing_k ≠ VDict ∅)
     then [(Long, trading_symbol self, cur_date, filing_k)] else []) ++
    (if bool_decide (news ≠ VDict ∅)
     then [(Short, trading_symbol self, cur_date, news)] else []) ++
    ((fun x => (Reflection, x.1.1, x.1.2, x.2)) <$> reflection_writes obs).
Proof.
  intros Hmode.
  destruct (run_step h self cur_date cur_price filing_k filing_q news cur_record run_mode w)
    as (w' & tr & res & self' & Hrun & Hspec).
  { intros v ->. by destruct Hmode. }
  rewrite Hrun. simpl.
  pose proof (ingest_memory_writes self cur_date cur_price filing_k filing_q news) as Hi.
  pose proof (ingest_no_reflection_write self cur_date cur_price filing_k filing_q news) as Hi'.
  rewrite !app_assoc, <- (app_assoc _ _ (if bool_decide (news ≠ VDict ∅) then _ else _)).
  rewrite <- Hi. clear Hi.
  unfold memory_writes, reflection_writes in *.
  destruct Hspec as [e s obs Hr|e s obs Hr _|s obs action answer Hr _];
    apply reflect_memory_writes in Hr; unfold memory_writes, reflection_writes in Hr;
    rewrite !omap_app, Hi', Hr, ?app_nil_l; [done|done|].
  pose proof (act_observations_no_memory_write s action answer) as Ha.
  pose proof (act_observations_no_reflection_write s action answer) as Ha'.
  unfold memory_writes, reflection_writes in Ha, Ha'.
  by rewrite Ha, Ha', !app_nil_r.
Qed.

(** C9, amended: in a step that is not done, the quarterly-like payload is
    written to the Mid tier, the annual-like payload to the Long tier and the
    news to the Short tier, each exactly once and to no other tier, when it
    differs from the empty dictionary [{}]; a payload that is [{}] is not
    written to any tier, and any other payload is written, an empty list, an
    empty string and [None] included.  The only other writes of the step go
    to the Reflection tier, after the payloads: the ["summary_reason"] of the
    answer of the reasoning call, when the answer is true and has one. *)
Theorem payloads_routed {W} (h : handler W) (w : W) (self : LLMAgent)
    (cur_date : date) (cur_price : Qc) (filing_k filing_q news : pyval)
    (cur_record : option Qc) (run_mode : RunMode) :
  run_mode = Train \/ run_mode = Test ->
  let obs := observe (run h (step (cur_date, cur_price, filing_k, filing_q, news,
                                    cur_record, false) run_mode self) w).2 in
  memory_writes obs =
    (if bool_decide (filing_q ≠ VDict ∅)
     then [(Mid, trading_symbol self, cur_date, filing_q)] else []) ++
    (if bool_decide (filing_k ≠ VDict ∅)
     then [(Long, trading_symbol self, cur_date, filing_k)] else []) ++
    (if bool_decide (news ≠ VDict ∅)
     then [(Short, trading_symbol self, cur_date, news)] else []) ++
    ((fun x => (Reflection, x.1.1, x.1.2, x.2)) <$> reflection_writes obs)
  /\ reflection_writes obs = reflection_answers obs ≫= rationale self cur_date.
Proof.
  intros Hmode obs. split.
  - by apply step_memory_writes.
  - by apply step_reflection_writes.
Qed.

Lemma payloads_routed_witness :
  let r := VDict {[ "summary_reason" := VStr "earnings look solid" ]} in
  let obs :=
    observe (run scripted (step (Examples.day1, 1%Qc, VDict ∅, VStr "10-Q",
                                 VList [VStr "rate hike"], Some (Q2Qc (1 # 2)), false)
                             Train Examples.agent0) (Examples.answering r None)).2 in
  memory_writes obs =
    [(Mid, "TSLA", Examples.day1, VStr "10-Q");
     (Short, "TSLA", Examples.day1, VList [VStr "rate hike"]);
     (Reflection, "TSLA", Examples.day1, VStr "earnings look solid")].
Proof.
  intros r obs.
  destruct (payloads_routed scripted (Examples.answering r None) Examples.agent0
              Examples.day1 1%Qc (VDict ∅) (VStr "10-Q") (VList [VStr "rate hike"])
              (Some (Q2Qc (1 # 2))) Train (or_introl eq_refl)) as [Hwrites Hreasons].
  fold obs in Hwrites, Hreasons. rewrite Hwrites, Hreasons.
  vm_compute. reflexivity.
Defined.

(** C9 as stated fails: a payload that is empty without being [{}] is
    written.  Below the quarterly-like payload is the empty string, the
    annual-like payload is [None] and the news is the empty list; each is
    written to its tier. *)
Lemma empty_payloads_written :
  let obs :=
    observe (run scripted (step (Examples.day1, 1%Qc, VNone, VStr EmptyString, VList [],
                                 Some (Q2Qc (1 # 2)), false)
                             Train Examples.agent0) (Examples.answering (VDict ∅) None)).2 in
  memory_writes obs =
    [(Mid, "TSLA", Examples.day1, VStr EmptyString);
     (Long, "TSLA", Examples.day1, VNone);
     (Short, "TSLA", Examples.day1, VList [])].
Proof. vm_compute. reflexivity. Qed.

(** ** Retrieval *)

(** X1: a step that is not done sends exactly four queries to the memory
    store, for the Short, Mid, Long and Reflection tier in this order, each
    with the character string of the agent as query text, its top-k and its
    symbol; it asks the portfolio for the momentum, with window 2, once in
    Test mode and never in Train mode.  This holds however the step ends. *)
Theorem step_queries {W} (h : handler W) (w : W) (self : LLMAgent)
    (cur_date : date) (cur_price : Qc) (filing_k filing_q news : pyval)
    (cur_record : option Qc) (run_mode : RunMode) :
  run_mode = Train \/ run_mode = Test ->
  let tr := (run h (step (cur_date, cur_price, filing_k, filing_q, news, cur_record, false)
                      run_mode self) w).2 in
  queries_asked tr =
    (fun t => (t, brain self, character_string self, top_k self, trading_symbol self))
      <$> all_tiers
  /\ moments_asked tr =
       match run_mode with
       | Test => [(portfolio self, 2)]
       | _ => []
       end.
Proof.
  intros Hmode tr.
  destruct (step_observed h w self cur_date cur_price filing_k filing_q news cur_record
              run_mode Hmode) as (w3 & _ & Hretrieve & _).
  unfold queries_asked, moments_asked. subst tr. rewrite Hretrieve.
  destruct Hmode as [-> | ->].
  - destruct (reflect_retrieves_train h cur_date cur_record self w3)
      as (short & mid & long & refl & r & ->). done.
  - destruct (reflect_retrieves_test h cur_date cur_record self w3)
      as (short & mid & long & refl & m
          & [(e & _ & _ & _ & _ & ->)|(cur_moment & r & _ & ->)]); done.
Qed.

Lemma step_queries_witness :
  let tr := (run scripted (step (Examples.news_only Examples.day1 false) Test Examples.agent0)
               (Examples.answering Examples.bought None)).2 in
  queries_asked tr =
    [(Short, BrainRef 0, "persona", 5, "TSLA"); (Mid, BrainRef 0, "persona", 5, "TSLA");
     (Long, BrainRef 0, "persona", 5, "TSLA"); (Reflection, BrainRef 0, "persona", 5, "TSLA")]
  /\ moments_asked tr = [(PortfolioRef 0, 2)].
Proof.
  exact (step_queries scripted (Examples.answering Examples.bought None) Examples.agent0
           Examples.day1 1%Qc (VDict ∅) (VDict ∅) (VList [VStr "rate hike"])
           (Some (Q2Qc (1 # 2))) Test (or_intror eq_refl)).
Defined.

(** X2: the reasoning call of a step gets the current date, the symbol and
    the guardrail end point of the agent, the run mode, and as memories the
    texts and identifiers the four queries of this step answered.  In Train
    mode it is made exactly once, with the realized outcome; in Test mode at
    most once, with a momentum and without the realized outcome. *)
Theorem step_reasoning_inputs {W} (h : handler W) (w : W) (self : LLMAgent)
    (cur_date : date) (cur_price : Qc) (filing_k filing_q news : pyval)
    (cur_record : option Qc) (run_mode : RunMode) :
  run_mode = Train \/ run_mode = Test ->
  let tr := (run h (step (cur_date, cur_price, filing_k, filing_q, news, cur_record, false)
                      run_mode self) w).2 in
  exists short mid long refl,
    query_answers tr = [short; mid; long; refl] /\
    match run_mode with
    | Train =>
        reasonings tr =
          [(cur_date, trading_symbol self, Train, guardrail_endpoint self,
            memories_of short mid long refl, future_record cur_record)]
    | _ =>
        reasonings tr = [] \/
        exists cur_moment,
          reasonings tr =
            [(cur_date, trading_symbol self, Test, guardrail_endpoint self,
              memories_of short mid long refl, momentum cur_moment)]
    end.
Proof.
  intros Hmode tr.
  destruct (step_observed h w self cur_date cur_price filing_k filing_q news cur_record
              run_mode Hmode) as (w3 & _ & Hretrieve & _).
  unfold query_answers, reasonings. subst tr. rewrite Hretrieve.
  destruct Hmode as [-> | ->].
  - destruct (reflect_retrieves_train h cur_date cur_record self w3)
      as (short & mid & long & refl & r & ->).
    by exists short, mid, long, refl.
  - destruct (reflect_retrieves_test h cur_date cur_record self w3)
      as (short & mid & long & refl & m
          & [(e & _ & _ & _ & _ & ->)|(cur_moment & r & _ & ->)]);
      exists short, mid, long, refl; (split; [done|]); [by left|right; by eexists].
Qed.

Lemma step_reasoning_inputs_witness :
  let tr := (run scripted (step (Examples.news_only Examples.day1 false) Train Examples.agent0)
               (Examples.answering (VDict ∅) None)).2 in
  exists short mid long refl,
    query_answers tr = [short; mid; long; refl] /\
    reasonings tr =
      [(Examples.day1, "TSLA", Train, GuardrailRef 0,
        memories_of short mid long refl, future_record (Some (Q2Qc (1 # 2))))].
Proof.
  exact (step_reasoning_inputs scripted (Examples.answering (VDict ∅) None) Examples.agent0
           Examples.day1 1%Qc (VDict ∅) (VDict ∅) (VList [VStr "rate hike"])
           (Some (Q2Qc (1 # 2))) Train (or_introl eq_refl)).
Defined.

(** X3: a Test step does not use the realized outcome: with the same
    collaborators, two steps that differ in the realized outcome only make
    the same calls, get the same answers and end alike. *)
Theorem test_step_ignores_outcome {W} (h : handler W) (w : W) (self : LLMAgent)
    (cur_date : date) (cur_price : Qc) (filing_k filing_q news : pyval)
    (cur_record cur_record' : option Qc) (done : bool) :
  run h (step (cur_date, cur_price, filing_k, filing_q, news, cur_record, done) Test self) w
  = run h (step (cur_date, cur_price, filing_k, filing_q, news, cur_record', done) Test self) w.
Proof. reflexivity. Qed.

(** X4: in a Test step the portfolio is asked for the momentum once.  When
    it answers [None] the reasoning call gets the momentum [None]; when it
    answers a dictionary the reasoning call gets its ["moment"]; when the
    ["moment"] cannot be read the step raises before the reasoning call:
    nothing is stored for the date and nothing but ingestion and the market
    update has happened. *)
Theorem test_step_momentum {W} (h : handler W) (w : W) (self : LLMAgent)
    (cur_date : date) (cur_price : Qc) (filing_k filing_q news : pyval)
    (cur_record : option Qc) :
  let out := run h (step (cur_date, cur_price, filing_k, filing_q, news, cur_record, false)
                      Test self) w in
  exists cur_moment_ret,
    moment_answers out.2 = [cur_moment_ret] /\
    match moment_of cur_moment_ret with
    | inr cur_moment =>
        exists memories,
          reasonings out.2 =
            [(cur_date, trading_symbol self, Test, guardrail_endpoint self, memories,
              momentum cur_moment)]
    | inl e =>
        reasonings out.2 = [] /\
        out.1.1.1 = inl e /\
        out.1.1.2 = self /\
        observe out.2 = ingest_observations self cur_date cur_price filing_k filing_q news
    end.
Proof.
  intros out.
  destruct (step_observed h w self cur_date cur_price filing_k filing_q news cur_record
              Test (or_intror eq_refl)) as (w3 & Hself & Hretrieve & Hend).
  fold out in Hself, Hretrieve, Hend.
  unfold moment_answers, reasonings. rewrite Hretrieve.
  destruct (reflect_retrieves_test h cur_date cur_record self w3)
    as (short & mid & long & refl & m
        & [(e & Hm & Hres & Hsame & Hobs & ->)|(cur_moment & r & Hm & ->)]);
    exists m; (split; [done|]); rewrite Hm.
  - split; [done|]. rewrite Hself, Hsame.
    destruct Hend as [(e' & Hout & Hwhy & Hshown)|(action & answer & Hok & _)].
    + rewrite Hshown, Hobs, app_nil_r, Hout.
      destruct Hwhy as [Hwhy|[Hwhy _]]; rewrite Hres in Hwhy; by simplify_eq.
    + rewrite Hres in Hok. done.
  - by eexists.
Qed.

(** ** The order of a step *)

Lemma reflect_spec_shape (run_mode : RunMode) (cur_date : date) (self self' : LLMAgent)
    (res : result unit) (obs : list observation) :
  reflect_spec run_mode cur_date self res self' obs ->
  market_updates obs = [] /\ series_updates obs = [] /\
  Forall (fun o => match o with
                   | Reflected _ _ _ | Added Reflection _ _ _ _ => True
                   | _ => False
                   end) obs.
Proof.
  intros [e|x r e Ht Hd|x r adds [->|[text ->]]]; repeat split; repeat constructor.
Qed.

(** A reflection that returned normally stored the answer of its reasoning
    call under the date. *)
Lemma reflect_spec_returned (run_mode : RunMode) (cur_date : date) (self self' : LLMAgent)
    (obs : list observation) :
  reflect_spec run_mode cur_date self (inr tt) self' obs ->
  exists r, reflection_answers obs = [r] /\ self' = set_reflection_result cur_date r self.
Proof.
  inversion 1 as [| |x r adds [->|[text ->]] Hlog Hself Hobs]; subst; by exists r.
Qed.

(** X5: a step that is not done forwards the price to the portfolio exactly
    once, under the current date, whatever documents arrived and however the
    step ends. *)
Theorem step_market_update {W} (h : handler W) (w : W) (self : LLMAgent)
    (cur_date : date) (cur_price : Qc) (filing_k filing_q news : pyval)
    (cur_record : option Qc) (run_mode : RunMode) :
  run_mode = Train \/ run_mode = Test ->
  market_updates
    (observe (run h (step (cur_date, cur_price, filing_k, filing_q, news, cur_record, false)
                       run_mode self) w).2)
  = [(portfolio self, cur_price, cur_date)].
Proof.
  intros Hmode.
  destruct (run_step h self cur_date cur_price filing_k filing_q news cur_record run_mode w)
    as (w' & tr & res & self' & Hrun & Hspec).
  { intros v ->. by destruct Hmode. }
  rewrite Hrun. simpl.
  assert (market_updates
            (ingest_observations self cur_date cur_price filing_k filing_q news)
          = [(portfolio self, cur_price, cur_date)]) as Hingest.
  { unfold ingest_observations. by repeat case_bool_decide. }
  unfold market_updates in *.
  destruct Hspec as [e s obs Hr|e s obs Hr _|s obs action answer Hr _];
    apply reflect_spec_shape in Hr as (Hm & _); unfold market_updates in Hm;
    rewrite !omap_app, Hingest, Hm; [done|done|].
  unfold act_observations. simpl. rewrite omap_app.
  rewrite omap_reinforced_none by done. by destruct (consume_feedback s answer).1.
Qed.

Lemma step_market_update_witness :
  market_updates
    (observe (run scripted (step (Examples.news_only Examples.day1 false) Test Examples.agent0)
                (Examples.answering (VStr "not a result") None)).2)
  = [(PortfolioRef 0, 1%Qc, Examples.day1)].
Proof.
  exact (step_market_update scripted (Examples.answering (VStr "not a result") None)
           Examples.agent0 Examples.day1 1%Qc (VDict ∅) (VDict ∅) (VList [VStr "rate hike"])
           (Some (Q2Qc (1 # 2))) Test (or_intror eq_refl)).
Defined.

(** X6: a step that returns normally has called the maintenance of the
    memory store exactly once, as its last call; a step that raises has not
    called it. *)
Theorem step_maintenance {W} (h : handler W) (w : W) (self : LLMAgent)
    (cur_date : date) (cur_price : Qc) (filing_k filing_q news : pyval)
    (cur_record : option Qc) (run_mode : RunMode) :
  run_mode = Train \/ run_mode = Test ->
  let out := run h (step (cur_date, cur_price, filing_k, filing_q, news, cur_record, false)
                      run_mode self) w in
  match out.1.1.1 with
  | inr _ =>
      maintenance (observe out.2) = [brain self] /\
      last (observe out.2) = Some (Maintained (brain self))
  | inl _ => maintenance (observe out.2) = []
  end.
Proof.
  intros Hmode.
  destruct (run_step h self cur_date cur_price filing_k filing_q news cur_record run_mode w)
    as (w' & tr & res & self' & Hrun & Hspec).
  { intros v ->. by destruct Hmode. }
  rewrite Hrun. simpl.
  destruct (ingest_quiet self cur_date cur_price filing_k filing_q news)
    as (_ & _ & _ & _ & Hi).
  unfold maintenance in *.
  destruct Hspec as [e s obs Hs|e s obs Hs _|s obs action answer Hs _].
  - destruct (reflect_quiet _ _ _ _ _ _ Hs) as (_ & _ & _ & _ & Hq).
    unfold maintenance in Hq. by rewrite omap_app, Hi, Hq.
  - destruct (reflect_quiet _ _ _ _ _ _ Hs) as (_ & _ & _ & _ & Hq).
    unfold maintenance in Hq. by rewrite omap_app, Hi, Hq.
  - destruct (reflect_quiet _ _ _ _ _ _ Hs) as (_ & _ & _ & _ & Hq).
    destruct (act_contributions s action answer) as (_ & _ & _ & _ & _ & Ha).
    unfold maintenance in Hq, Ha.
    assert (brain s = brain self) as Hbrain.
    { by destruct (reflect_frame _ _ _ _ _ _ Hs) as [->|[r ->]]. }
    rewrite !omap_app, Hi, Hq, Ha. simpl.
    unfold act_observations.
    destruct (consume_feedback s answer).1 as [e|[]]; [done|].
    split; [by rewrite Hbrain|].
    match goal with
    | |- last (?i ++ ?o ++ ?a ++ ?f :: ?r ++ [?m]) = _ =>
        replace (i ++ o ++ a ++ f :: r ++ [m]) with ((i ++ o ++ a ++ f :: r) ++ [m])
          by (by rewrite <- !app_assoc)
    end.
    rewrite last_snoc. by rewrite Hbrain.
Qed.

Lemma step_maintenance_witness :
  let out := run scripted (step (Examples.day1, 1%Qc, VDict ∅, VDict ∅,
                                 VList [VStr "rate hike"], Some (Q2Qc (1 # 2)), false)
                             Test Examples.agent0)
               (Examples.answering Examples.bought None) in
  out.1.1.1 = inr tt /\
  maintenance (observe out.2) = [brain Examples.agent0] /\
  last (observe out.2) = Some (Maintained (brain Examples.agent0)).
Proof.
  intros out.
  assert (out.1.1.1 = inr tt) as Hres by (vm_compute; reflexivity).
  split; [exact Hres|].
  pose proof (step_maintenance scripted (Examples.answering Examples.bought None)
                Examples.agent0 Examples.day1 1%Qc (VDict ∅) (VDict ∅)
                (VList [VStr "rate hike"]) (Some (Q2Qc (1 # 2))) Test (or_intror eq_refl))
    as Hstep.
  cbv zeta in Hstep. fold out in Hstep. rewrite Hres in Hstep. exact Hstep.
Defined.

(** X7: a step records at most one action.  When it records one, the
    action goes to the portfolio of the agent and is followed at once by the
    update of the portfolio series and then by the one feedback request of
    the step; all reinforcement and maintenance comes after, and nothing
    before is an action, a series update or a feedback request.  A step that
    records no action updates no series and asks for no feedback. *)
Theorem step_action_then_feedback {W} (h : handler W) (w : W) (self : LLMAgent)
    (cur_date : date) (cur_price : Qc) (filing_k filing_q news : pyval)
    (cur_record : option Qc) (run_mode : RunMode) :
  run_mode = Train \/ run_mode = Test ->
  let obs := observe (run h (step (cur_date, cur_price, filing_k, filing_q, news,
                                    cur_record, false) run_mode self) w).2 in
  (actions obs = [] /\ series_updates obs = [] /\ feedback_answers obs = [] /\
   reinforcements obs = [])
  \/
  (exists before action answer after,
      obs = before ++
            [Acted (portfolio self) action; SeriesUpdated (portfolio self);
             FeedbackAnswered answer] ++ after /\
      actions before = [] /\ series_updates before = [] /\ feedback_answers before = [] /\
      reinforcements before = [] /\ maintenance before = [] /\
      actions after = [] /\ series_updates after = [] /\ feedback_answers after = []).
Proof.
  intros Hmode.
  destruct (run_step h self cur_date cur_price filing_k filing_q news cur_record run_mode w)
    as (w' & tr & res & self' & Hrun & Hspec).
  { intros v ->. by destruct Hmode. }
  rewrite Hrun. simpl.
  destruct (ingest_quiet self cur_date cur_price filing_k filing_q news)
    as (Ia & If & Ir & _ & Im).
  assert (series_updates
            (ingest_observations self cur_date cur_price filing_k filing_q news) = [])
    as Is.
  { unfold ingest_observations. by repeat case_bool_decide. }
  destruct Hspec as [e s obs Hs|e s obs Hs _|s obs action answer Hs _];
    destruct (reflect_quiet _ _ _ _ _ _ Hs) as (_ & Ra & Rf & Rr & Rm);
    destruct (reflect_spec_shape _ _ _ _ _ _ Hs) as (_ & Rs & _);
    unfold actions, series_updates, feedback_answers, reinforcements, maintenance in *.
  - left. by rewrite !omap_app, Ia, Is, If, Ir, Ra, Rs, Rf, Rr.
  - left. by rewrite !omap_app, Ia, Is, If, Ir, Ra, Rs, Rf, Rr.
  - right.
    assert (portfolio s = portfolio self) as Hportfolio.
    { by destruct (reflect_frame _ _ _ _ _ _ Hs) as [->|[r ->]]. }
    exists (ingest_observations self cur_date cur_price filing_k filing_q news ++ obs),
      action, answer,
      ((reinforced_with s (magnitude answer) <$> (consume_feedback s answer).2) ++
       match (consume_feedback s answer).1 with
       | inr _ => [Maintained (brain s)]
       | inl _ => []
       end).
    split.
    { unfold act_observations. rewrite Hportfolio. by rewrite <- !app_assoc. }
    rewrite !omap_app, Ia, Is, If, Ir, Im, Ra, Rs, Rf, Rr, Rm.
    rewrite !omap_reinforced_none by done.
    by destruct (consume_feedback s answer).1.
Qed.

Lemma step_action_then_feedback_witness :
  let obs := observe (run scripted (step (Examples.news_only Examples.day1 false) Test
                                      Examples.agent0)
                        (Examples.answering Examples.bought None)).2 in
  (actions obs = [] /\ series_updates obs = [] /\ feedback_answers obs = [] /\
   reinforcements obs = [])
  \/
  (exists before action answer after,
      obs = before ++
            [Acted (PortfolioRef 0) action; SeriesUpdated (PortfolioRef 0);
             FeedbackAnswered answer] ++ after /\
      actions before = [] /\ series_updates before = [] /\ feedback_answers before = [] /\
      reinforcements before = [] /\ maintenance before = [] /\
      actions after = [] /\ series_updates after = [] /\ feedback_answers after = []).
Proof.
  exact (step_action_then_feedback scripted (Examples.answering Examples.bought None)
           Examples.agent0 Examples.day1 1%Qc (VDict ∅) (VDict ∅)
           (VList [VStr "rate hike"]) (Some (Q2Qc (1 # 2))) Test (or_intror eq_refl)).
Defined.

(** ** What a step changes of the agent *)

(** X8: whatever its inputs and however it ends, a step changes nothing of
    the agent but the entry of [reflection_result_series_dict] for the
    current date: the entries of all other dates, the scalars, the
    collaborators and the access counters are as before, and no entry is
    removed. *)
Theorem step_frame {W} (h : handler W) (w : W) (self : LLMAgent)
    (cur_date : date) (cur_price : Qc) (filing_k filing_q news : pyval)
    (cur_record : option Qc) (done : bool) (run_mode : RunMode) :
  let self' := (run h (step (cur_date, cur_price, filing_k, filing_q, news, cur_record, done)
                         run_mode self) w).1.1.2 in
  (forall d, d ≠ cur_date ->
     reflection_result_series_dict self' !! d = reflection_result_series_dict self !! d) /\
  dom (reflection_result_series_dict self) ⊆ dom (reflection_result_series_dict self') /\
  counter self' = counter self /\ top_k self' = top_k self /\
  agent_name self' = agent_name self /\ trading_symbol self' = trading_symbol self /\
  character_string self' = character_string self /\
  chat_end_point_name self' = chat_end_point_name self /\
  chat_end_point_config self' = chat_end_point_config self /\
  look_back_window_size self' = look_back_window_size self /\
  brain self' = brain self /\ portfolio self' = portfolio self /\
  chat_end_point self' = chat_end_point self /\
  guardrail_endpoint self' = guardrail_endpoint self /\
  access_counter self' = access_counter self.
Proof.
  assert ((run h (step (cur_date, cur_price, filing_k, filing_q, news, cur_record, done)
                    run_mode self) w).1.1.2 = self \/
          exists r, (run h (step (cur_date, cur_price, filing_k, filing_q, news, cur_record,
                                  done) run_mode self) w).1.1.2
                    = set_reflection_result cur_date r self) as [-> | [r ->]].
  { destruct run_mode as [| |v]; [| |by left].
    all: destruct done; [by left|].
    all: match goal with
         | |- context [step ?mi ?m ?s] =>
             destruct (run_step h self cur_date cur_price filing_k filing_q news
                         cur_record m w)
               as (w' & tr & res & self' & Hrun & Hspec); [done|]
         end.
    all: rewrite Hrun; simpl.
    all: apply step_spec_inv in Hspec as (res_r & obs_r & Hr & _).
    all: apply (reflect_frame _ _ _ _ _ _ Hr). }
  - by repeat split.
  - simpl. split; [|split; [|by repeat split]].
    + intros d Hd. by rewrite lookup_insert_ne.
    + rewrite dom_insert. set_solver.
Qed.

(** X9: a step that records an action, and so every step that asks for
    feedback or returns normally, has stored the answer of its reasoning
    call under the current date before. *)
Theorem step_stores_before_acting {W} (h : handler W) (w : W) (self : LLMAgent)
    (cur_date : date) (cur_price : Qc) (filing_k filing_q news : pyval)
    (cur_record : option Qc) (run_mode : RunMode) :
  run_mode = Train \/ run_mode = Test ->
  let out := run h (step (cur_date, cur_price, filing_k, filing_q, news, cur_record, false)
                      run_mode self) w in
  actions (observe out.2) ≠ [] \/ feedback_answers (observe out.2) ≠ [] \/
    out.1.1.1 = inr tt ->
  exists r,
    reflection_answers (observe out.2) = [r] /\
    reflection_result_series_dict out.1.1.2 !! cur_date = Some r.
Proof.
  intros Hmode.
  destruct (run_step h self cur_date cur_price filing_k filing_q news cur_record run_mode w)
    as (w' & tr & res & self' & Hrun & Hspec).
  { intros v ->. by destruct Hmode. }
  rewrite Hrun. simpl. intros Hacted.
  apply step_spec_inv in Hspec as (res_r & obs_r & Hr & Hanswers & Hend).
  assert (res_r = inr tt) as ->.
  { destruct Hend as [(e & -> & _ & Ha & Hf & _)|(action & answer & -> & _)]; [|done].
    destruct Hacted as [?|[?|?]]; done. }
  apply reflect_spec_returned in Hr as (r & Hr & ->).
  exists r. rewrite Hanswers. split; [done|]. apply lookup_set_reflection_result.
Qed.

Lemma step_stores_before_acting_witness :
  let out := run scripted (step (Examples.news_only Examples.day1 false) Test Examples.agent0)
               (Examples.answering Examples.bought None) in
  exists r,
    reflection_answers (observe out.2) = [r] /\
    reflection_result_series_dict out.1.1.2 !! Examples.day1 = Some r.
Proof.
  refine (step_stores_before_acting scripted (Examples.answering Examples.bought None)
            Examples.agent0 Examples.day1 1%Qc (VDict ∅) (VDict ∅)
            (VList [VStr "rate hike"]) (Some (Q2Qc (1 # 2))) Test (or_intror eq_refl) _).
  right. right. vm_compute. reflexivity.
Defined.

(** ** Actions *)

Lemma process_test_action_shape (test_reflection_result : pyval) (action : gmap string Z) :
  __process_test_action test_reflection_result = inr action ->
  action = {[ "direction" := 1 ]} \/ action = {[ "direction" := 0 ]} \/
  action = {[ "direction" := -1 ]}.
Proof.
  unfold __process_test_action, decision_is.
  destruct (truthy test_reflection_result); simpl; [|intros [= <-]; by eauto].
  destruct (py_getitem test_reflection_result "investment_decision"); simpl; [done|].
  repeat case_bool_decide; intros [= <-]; by eauto.
Qed.

(** X10: every action a Test step records is [{"direction": d}] with [d]
    one of 1, 0 and -1, and has no other key (no ["quantity"]), whatever the
    reasoning call answered. *)
Theorem test_action_shape {W} (h : handler W) (w : W) (self : LLMAgent)
    (cur_date : date) (cur_price : Qc) (filing_k filing_q news : pyval)
    (cur_record : option Qc) (action : gmap string Z) :
  action ∈ actions (observe (run h (step (cur_date, cur_price, filing_k, filing_q, news,
                                           cur_record, false) Test self) w).2) ->
  action = {[ "direction" := 1 ]} \/ action = {[ "direction" := 0 ]} \/
  action = {[ "direction" := -1 ]}.
Proof.
  destruct (run_step h self cur_date cur_price filing_k filing_q news cur_record Test w)
    as (w' & tr & res & self' & Hrun & Hspec); [done|].
  rewrite Hrun. simpl. intros Hin.
  apply step_spec_inv in Hspec as (res_r & obs_r & _ & _ & Hend).
  destruct Hend as [(e & _ & _ & Hnone & _)|(a & answer & _ & Hact & _ & Hone & _)].
  { rewrite Hnone in Hin. by apply elem_of_nil in Hin. }
  rewrite Hone in Hin. apply list_elem_of_singleton in Hin as ->.
  simpl in Hact.
  destruct (reflection_result_series_dict self' !! cur_date) as [r|]; [|done].
  by apply process_test_action_shape in Hact.
Qed.

Lemma test_action_shape_witness :
  ({[ "direction" := 1 ]} : gmap string Z) = {[ "direction" := 1 ]} \/
  ({[ "direction" := 1 ]} : gmap string Z) = {[ "direction" := 0 ]} \/
  ({[ "direction" := 1 ]} : gmap string Z) = {[ "direction" := -1 ]}.
Proof.
  refine (test_action_shape scripted (Examples.answering Examples.bought None)
            Examples.agent0 Examples.day1 1%Qc (VDict ∅) (VDict ∅)
            (VList [VStr "rate hike"]) (Some (Q2Qc (1 # 2))) {[ "direction" := 1 ]} _).
  vm_compute. left.
Defined.

(** X11: a Train step without a realized outcome ([cur_record] is [None])
    raises: it records no action, asks for no feedback and calls no
    maintenance.  When the reasoning call answered a dictionary the step
    fails with [TypeError] after having stored the answer under the current
    date. *)
Theorem train_step_without_outcome {W} (h : handler W) (w : W) (self : LLMAgent)
    (cur_date : date) (cur_price : Qc) (filing_k filing_q news : pyval) :
  let out := run h (step (cur_date, cur_price, filing_k, filing_q, news, None, false)
                      Train self) w in
  (exists e, out.1.1.1 = inl e) /\
  actions (observe out.2) = [] /\
  feedback_answers (observe out.2) = [] /\
  maintenance (observe out.2) = [] /\
  (forall d, VDict d ∈ reflection_answers (observe out.2) ->
     out.1.1.1 = inl TypeError /\
     reflection_result_series_dict out.1.1.2 !! cur_date = Some (VDict d)).
Proof.
  destruct (run_step h self cur_date cur_price filing_k filing_q news None Train w)
    as (w' & tr & res & self' & Hrun & Hspec); [done|].
  rewrite Hrun. simpl.
  apply step_spec_inv in Hspec as (res_r & obs_r & Hr & Hanswers & Hend).
  destruct Hend as [(e & -> & Hwhy & Ha & Hf & _ & Hm)|(action & answer & _ & Hact & _)];
    [|done].
  split; [by eauto|]. split; [done|]. split; [done|]. split; [done|].
  intros d Hd. rewrite Hanswers in Hd.
  destruct (reflect_spec_answer _ _ _ _ _ _ _ Hr Hd) as [Hres ->]; [by eauto|].
  simpl in Hres. rewrite lookup_set_reflection_result. split; [|done].
  destruct Hwhy as [->|[_ Hact]]; [done|]. simpl in Hact. congruence.
Qed.

(** ** Reinforcement, identifier by identifier and tier by tier *)

Lemma filter_not_in_snoc (acc l : list pyval) (id : pyval) :
  List.filter (fun x => bool_decide (x ∉ acc ++ [id])) l =
  List.filter (fun x => bool_decide (x ∉ acc)) (List.filter (fun x => bool_decide (x ≠ id)) l).
Proof.
  induction l as [|x l IH]; simpl; [done|].
  rewrite IH. clear IH.
  destruct (decide (x = id)) as [->|Hne].
  - rewrite bool_decide_false, (bool_decide_false (id ≠ id)); [done|by intros []|].
    intros Hn. apply Hn, elem_of_app. right. left.
  - rewrite (bool_decide_true (x ≠ id)) by done. simpl.
    destruct (decide (x ∈ acc)) as [Hin|Hin].
    + rewrite !bool_decide_false; [done|by intros []|].
      intros Hn. apply Hn, elem_of_app. by left.
    + rewrite !bool_decide_true; [done|done|].
      intros [Hx|Hx]%elem_of_app; [done|].
      by apply list_elem_of_singleton in Hx.
Qed.

Lemma filter_not_in_absorb (acc l : list pyval) (id : pyval) :
  id ∈ acc ->
  List.filter (fun x => bool_decide (x ∉ acc)) (List.filter (fun x => bool_decide (x ≠ id)) l) =
  List.filter (fun x => bool_decide (x ∉ acc)) l.
Proof.
  intros Hid. induction l as [|x l IH]; simpl; [done|].
  destruct (decide (x = id)) as [->|Hne].
  - rewrite (bool_decide_false (id ≠ id)) by (by intros []).
    rewrite (bool_decide_false (id ∉ acc)) by (by intros []). done.
  - rewrite (bool_decide_true (x ≠ id)) by done. simpl. by rewrite IH.
Qed.

(** The loop of [__update_access_counter_sub] appends to [cur_ids] the
    identifiers that are not in it, in the order of their first
    occurrence. *)
Lemma collect_cur_ids_first (items ids : list pyval) :
  Forall2 (fun i id => py_getitem i "memory_index" = inr id) items ids ->
  forall cur_ids,
    collect_cur_ids items cur_ids =
      inr (cur_ids ++ List.filter (fun x => bool_decide (x ∉ cur_ids)) (first_occurrences ids)).
Proof.
  induction 1 as [|i id items ids Hi _ IH]; intros cur_ids; simpl.
  - by rewrite app_nil_r.
  - rewrite Hi. simpl. rewrite IH. f_equal.
    destruct (decide (id ∈ cur_ids)) as [Hin|Hin].
    + rewrite !(bool_decide_false (id ∉ cur_ids)) by (by intros []).
      by rewrite filter_not_in_absorb.
    + rewrite !(bool_decide_true (id ∉ cur_ids)) by done.
      rewrite <- app_assoc. simpl. by rewrite filter_not_in_snoc.
Qed.

Lemma filter_all (l : list pyval) :
  List.filter (fun x => bool_decide (x ∉ [])) l = l.
Proof.
  induction l as [|x l IH]; [done|]. cbn [List.filter].
  rewrite bool_decide_true by apply not_elem_of_nil. by rewrite IH.
Qed.

(** Identifiers without repetition are their own first occurrences. *)
Lemma first_occurrences_nodup (ids : list pyval) :
  NoDup ids -> first_occurrences ids = ids.
Proof.
  induction 1 as [|id ids Hid _ IH]; simpl; [done|].
  rewrite IH. f_equal. clear IH.
  induction ids as [|x ids IH]; simpl; [done|].
  apply not_elem_of_cons in Hid as [Hne Hid].
  rewrite bool_decide_true by done. f_equal. by apply IH.
Qed.

Lemma tier_ids_first (cur_memory : pyval) (t : tier) (sent : list pyval) :
  tier_ids cur_memory t = inr (Some sent) ->
  exists recorded, recorded_ids cur_memory t recorded /\ sent = first_occurrences recorded.
Proof.
  unfold tier_ids.
  destruct (py_contains (layer_index_name t) cur_memory) as [e|[]]; simpl; [done| |done].
  destruct (py_getitem cur_memory (layer_index_name t)) as [e|layer] eqn:Hlayer;
    simpl; [done|].
  destruct (py_iter layer) as [e|items] eqn:Hitems; simpl; [done|].
  destruct (collect_cur_ids items []) as [e|out] eqn:Hout; simpl; [done|].
  intros [= <-].
  destruct (collect_cur_ids_spec _ _ _ Hout) as (ids & Hids & _).
  exists ids. split; [by exists layer, items|].
  rewrite (collect_cur_ids_first _ _ Hids), app_nil_l, filter_all in Hout. congruence.
Qed.

(** X12: the identifiers of a reinforcement call are the ["memory_index"]
    values the record lists for the tier, in the order of their first
    occurrence, each once; a list without repetition is sent as it is. *)
Theorem reinforcement_first_occurrences {W} (h : handler W) (w : W) (self : LLMAgent)
    (cur_date : date) (cur_price : Qc) (filing_k filing_q news : pyval)
    (cur_record : option Qc) (run_mode : RunMode) (fb : Feedback) (cur_memory : pyval) :
  run_mode = Train \/ run_mode = Test ->
  let out := run h (step (cur_date, cur_price, filing_k, filing_q, news, cur_record, false)
                      run_mode self) w in
  Some fb ∈ feedback_answers (observe out.2) ->
  feedback fb ≠ 0 ->
  reflection_result_series_dict out.1.1.2 !! feedback_date fb = Some cur_memory ->
  exists called : list tier,
    called `sublist_of` all_tiers /\
    Forall2 (fun t sent =>
               exists recorded,
                 recorded_ids cur_memory t recorded /\
                 sent = (first_occurrences recorded, feedback fb) /\
                 (NoDup recorded -> sent.1 = recorded))
      called (reinforcements (observe out.2)).
Proof.
  intros Hmode out Hin Hfb Hdate.
  destruct (step_feedback h w self cur_date cur_price filing_k filing_q news cur_record
              run_mode (Some fb) Hmode Hin) as (_ & Hcalls & _).
  fold out in Hcalls.
  assert (consume_feedback out.1.1.2 (Some fb) = reinforce_tiers cur_memory all_tiers)
    as Hconsume.
  { unfold consume_feedback. by rewrite bool_decide_true, Hdate. }
  rewrite Hconsume in Hcalls. simpl in Hcalls.
  destruct (reinforce_tiers_stops cur_memory all_tiers) as (called & Hsub & Hsent & _).
  exists called. split; [done|].
  rewrite Hcalls. apply Forall2_fmap_r.
  eapply Forall2_impl; [exact Hsent|].
  intros t sent (recorded & Hrec & ->)%tier_ids_first.
  exists recorded. split; [done|]. split; [done|]. simpl. apply first_occurrences_nodup.
Qed.

Lemma reinforcement_first_occurrences_witness :
  let out := run scripted (step (Examples.news_only Examples.day1 false) Test Examples.agent0)
               (Examples.answering Examples.bought
                  (Some {| feedback := -1; feedback_date := Examples.day1 |})) in
  exists called : list tier,
    called `sublist_of` all_tiers /\
    Forall2 (fun t sent =>
               exists recorded,
                 recorded_ids Examples.bought t recorded /\
                 sent = (first_occurrences recorded, -1) /\
                 (NoDup recorded -> sent.1 = recorded))
      called (reinforcements (observe out.2)).
Proof.
  refine (reinforcement_first_occurrences scripted _ Examples.agent0 Examples.day1 1%Qc
            (VDict ∅) (VDict ∅) (VList [VStr "rate hike"]) (Some (Q2Qc (1 # 2))) Test
            {| feedback := -1; feedback_date := Examples.day1 |} Examples.bought
            (or_intror eq_refl) _ _ _).
  - vm_compute. left.
  - simpl. lia.
  - vm_compute. reflexivity.
Defined.

(** ** Checkpoints, call by call *)

(** X13: what [save_checkpoint] does, call by call.  It asks whether the
    directory of the agent exists; when it does and [force] is not set it
    raises [FileExistsError] having made no other call; when it does and
    [force] is set it removes the directory first; then it makes the
    directory and its [brain] directory, pickles the state of the agent and
    has the memory store save itself under [brain] with the same [force].
    The agent is not changed. *)
Theorem save_checkpoint_trace {W} (h : handler W) (w : W) (self : LLMAgent)
    (path : string) (force : bool) :
  let saved := run h (save_checkpoint path force self) w in
  let target := os_path_join path (agent_name self) in
  let present : bool := (h (os_path_exists target) w).1 in
  let writes :=
    [os_mkdir target;
     os_mkdir (os_path_join target "brain");
     pickle_dump (os_path_join target "state_dict.pkl") (make_state_dict self);
     brain_save_checkpoint (brain self) (os_path_join target "brain") force] in
  calls_of saved.2 =
    os_path_exists target ::
      (if present then if force then shutil_rmtree target :: writes else [] else writes) /\
  saved.1.1.1 = (if present && negb force then inl FileExistsError else inr tt) /\
  saved.1.1.2 = self.
Proof.
  unfold save_checkpoint. run_steps.
  destruct (h (os_path_exists (os_path_join path (agent_name self))) w) as [present w1].
  simpl. destruct present; [destruct force|]; run_steps; repeat name_answer h; done.
Qed.

(** X14: what [load_checkpoint] does, call by call, and where the parts of
    the restored agent come from.  It unpickles the state, has the memory
    store load itself, and constructs an agent with the default look-back
    window, which builds a new portfolio, a new end point and its guardrail.
    The restored agent keeps the loaded memory store and the guardrail of the
    NEW end point, while its portfolio and its end point are the pickled
    ones; its end-point settings are never [None]. *)
Theorem load_checkpoint_trace {W} (h : handler W) (w : W) (path : string) :
  let restored := run h (load_checkpoint path) w in
  exists (sd : state_dict) (b : BrainDB) (p : Portfolio) (c : ChatEndPoint)
         (g : GuardrailEndpoint),
    let settings :=
      if bool_decide (sd_chat_end_point_config sd = VNone)
      then default_chat_end_point_config else sd_chat_end_point_config sd in
    restored.2 =
      [Ev (pickle_load (os_path_join path "state_dict.pkl")) sd;
       Ev (BrainDB_load_checkpoint (os_path_join path "brain")) b;
       Ev (Portfolio_init (sd_trading_symbol sd) default_look_back_window_size) p;
       Ev (get_chat_end_points (sd_chat_end_point_name sd) settings) c;
       Ev (chat_guardrail_endpoint c) g] /\
    brain restored.1.1 = b /\
    guardrail_endpoint restored.1.1 = g /\
    portfolio restored.1.1 = sd_portfolio sd /\
    chat_end_point restored.1.1 = sd_chat_end_point sd /\
    chat_end_point_config restored.1.1 = settings /\
    settings ≠ VNone.
Proof.
  unfold load_checkpoint, __init__. simpl.
  do 5 eexists. repeat split. by case_bool_decide.
Qed.

(** X15: an agent saved and restored.  When the restore unpickles what the
    save pickled, the restored agent is the saved one in every attribute
    except three: the look-back window is the default of the constructor,
    and the memory store and the guardrail are the ones the restore built
    (end-point settings that were [None] come back as the default
    settings). *)
Theorem save_then_load {W} (h : handler W) (w w' : W) (self : LLMAgent)
    (path path' : string) (force : bool) :
  let saved := run h (save_checkpoint path force self) w in
  let restored := run h (load_checkpoint path') w' in
  saved.1.1.1 = inr tt ->
  unpickled restored.2 = pickled saved.2 ->
  restored.1.1 =
    {| counter := counter self;
       top_k := top_k self;
       agent_name := agent_name self;
       trading_symbol := trading_symbol self;
       character_string := character_string self;
       chat_end_point_name := chat_end_point_name self;
       chat_end_point_config :=
         if bool_decide (chat_end_point_config self = VNone)
         then default_chat_end_point_config else chat_end_point_config self;
       look_back_window_size := default_look_back_window_size;
       brain := brain restored.1.1;
       portfolio := portfolio self;
       chat_end_point := chat_end_point self;
       guardrail_endpoint := guardrail_endpoint restored.1.1;
       reflection_result_series_dict := reflection_result_series_dict self;
       access_counter := access_counter self |}.
Proof.
  intros saved restored Hsaved Hsame.
  destruct (run_save_checkpoint h w self path force) as (_ & [[Hres _]|[_ Hpickled]]).
  { fold saved in Hres. congruence. }
  fold saved in Hpickled. rewrite Hpickled in Hsame. clear Hpickled Hsaved. subst saved.
  subst restored. revert Hsame. unfold load_checkpoint, __init__. simpl.
  intros [= _ Hsd]. by rewrite Hsd.
Qed.

Lemma save_then_load_witness :
  let saved := run scripted (save_checkpoint "checkpoints" false RoundTrip.agent1)
                 (Examples.answering VNone None) in
  let restored := run scripted (load_checkpoint "checkpoints/agent") saved.1.2 in
  look_back_window_size RoundTrip.agent1 = 10 /\
  look_back_window_size restored.1.1 = 7 /\
  reflection_result_series_dict restored.1.1 = {[ Examples.day1 := Examples.bought ]}.
Proof.
  intros saved restored.
  pose proof (save_then_load scripted (Examples.answering VNone None) saved.1.2
                RoundTrip.agent1 "checkpoints" "checkpoints/agent" false) as Hsame.
  cbv zeta in Hsame. fold saved in Hsame. fold restored in Hsame.
  rewrite Hsame; [done| |]; vm_compute; reflexivity.
Defined.

(** ** What a step leaves alone *)


(** ** Construction from a configuration *)

(** X17: what [from_config] builds from a configuration that has the
    entries it reads.  The agent has the configured names, the given memory
    store and the configured look-back window, with which its portfolio is
    constructed; its [top_k] is the configured one, and 5 when the
    configuration has none (not the 1 of the constructor); its end-point
    settings are the whole ["chat"] dictionary, never the default settings of
    the constructor; it starts with counter 1, no reflection result and no
    access counter. *)
Theorem from_config_builds {W} (h : handler W) (w : W) (config : config_type)
    (general : general_config) (chat : chat_config) (name symbol character endpoint : string)
    (window : Z) (brain_db : BrainDB) :
  cfg_general config = Some general ->
  cfg_agent_name general = Some name ->
  cfg_trading_symbol general = Some symbol ->
  cfg_character_string general = Some character ->
  cfg_chat config = Some chat ->
  cfg_endpoint chat = Some endpoint ->
  cfg_look_back_window_size general = Some window ->
  exists k p,
    from_config config = inr k /\ k brain_db = inr p /\
    let built := run h p w in
    calls_of built.2 =
      [Portfolio_init symbol window;
       get_chat_end_points endpoint (chat_dict chat);
       chat_guardrail_endpoint (chat_end_point built.1.1)] /\
    built.1.1 =
      {| counter := 1;
         top_k := default 5 (cfg_top_k general);
         agent_name := name;
         trading_symbol := symbol;
         character_string := character;
         chat_end_point_name := endpoint;
         chat_end_point_config := chat_dict chat;
         look_back_window_size := window;
         brain := brain_db;
         portfolio := portfolio built.1.1;
         chat_end_point := chat_end_point built.1.1;
         guardrail_endpoint := guardrail_endpoint built.1.1;
         reflection_result_series_dict := ∅;
         access_counter := [] |}.
Proof.
  intros Hgeneral Hname Hsymbol Hcharacter Hchat Hendpoint Hwindow.
  unfold from_config. rewrite Hgeneral. simpl. rewrite Hname, Hsymbol, Hcharacter. simpl.
  eexists _, _. split; [reflexivity|].
  rewrite Hchat. simpl. rewrite Hendpoint, Hwindow. simpl. split; [reflexivity|].
  unfold __init__. rewrite bool_decide_false by done. simpl. done.
Qed.

Lemma from_config_builds_witness :
  exists k p,
    from_config config0 = inr k /\ k (BrainRef 0) = inr p /\
    let built := run scripted p (Examples.answering VNone None) in
    calls_of built.2 =
      [Portfolio_init "TSLA" 3;
       get_chat_end_points "openai"
         (chat_dict {| cfg_endpoint := Some "openai";
                       cfg_settings := {[ "model_name" := VStr "gpt-4" ]} |});
       chat_guardrail_endpoint (chat_end_point built.1.1)] /\
    built.1.1 =
      {| counter := 1;
         top_k := default 5 None;
         agent_name := "agent";
         trading_symbol := "TSLA";
         character_string := "a trader";
         chat_end_point_name := "openai";
         chat_end_point_config :=
           chat_dict {| cfg_endpoint := Some "openai";
                        cfg_settings := {[ "model_name" := VStr "gpt-4" ]} |};
         look_back_window_size := 3;
         brain := BrainRef 0;
         portfolio := portfolio built.1.1;
         chat_end_point := chat_end_point built.1.1;
         guardrail_endpoint := guardrail_endpoint built.1.1;
         reflection_result_series_dict := ∅;
         access_counter := [] |}.
Proof.
  exact (from_config_builds scripted (Examples.answering VNone None) config0 _ _
           "agent" "TSLA" "a trader" "openai" 3 (BrainRef 0)
           eq_refl eq_refl eq_refl eq_refl eq_refl eq_refl eq_refl).
Defined.

(** X18: what [from_config] requires.  It builds an agent exactly when the
    configuration has ["general"] with ["agent_name"], ["trading_symbol"],
    ["character_string"] and ["look_back_window_size"], and ["chat"] with
    ["endpoint"]; ["top_k"] may be missing.  Every failure is a [KeyError];
    one about the three names arises before the memory store is built, one
    about ["chat"], ["endpoint"] or ["look_back_window_size"] after. *)
Theorem from_config_requires (config : config_type) :
  let named :=
    exists general name symbol character,
      cfg_general config = Some general /\
      cfg_agent_name general = Some name /\
      cfg_trading_symbol general = Some symbol /\
      cfg_character_string general = Some character in
  let complete :=
    exists general chat endpoint window,
      cfg_general config = Some general /\
      cfg_chat config = Some chat /\
      cfg_endpoint chat = Some endpoint /\
      cfg_look_back_window_size general = Some window in
  match from_config config with
  | inl e => e = KeyError /\ ~ named
  | inr k =>
      named /\
      forall brain_db,
        match k brain_db with
        | inl e => e = KeyError /\ ~ complete
        | inr _ => complete
        end
  end.
Proof.
  unfold from_config.
  destruct (cfg_general config) as [general|] eqn:Hgeneral; simpl;
    [|split; [done|]; by intros (g & n & s & c & [=] & _)].
  destruct (cfg_agent_name general) as [name|] eqn:Hname; simpl;
    [|split; [done|]; intros (g & n & s & c & [= <-] & Hn & _); congruence].
  destruct (cfg_trading_symbol general) as [symbol|] eqn:Hsymbol; simpl;
    [|split; [done|]; intros (g & n & s & c & [= <-] & _ & Hs & _); congruence].
  destruct (cfg_character_string general) as [character|] eqn:Hcharacter; simpl;
    [|split; [done|]; intros (g & n & s & c & [= <-] & _ & _ & Hc); congruence].
  split; [by eauto 10|]. intros brain_db.
  destruct (cfg_chat config) as [chat|] eqn:Hchat; simpl;
    [|split; [done|]; by intros (g & c & e & n & _ & [=] & _)].
  destruct (cfg_endpoint chat) as [endpoint|] eqn:Hendpoint; simpl;
    [|split; [done|]; intros (g & c & e & n & _ & [= <-] & He & _); congruence].
  destruct (cfg_look_back_window_size general) as [window|] eqn:Hwindow; simpl;
    [|split; [done|]; intros (g & c & e & n & [= <-] & _ & _ & Hn); congruence].
  by eauto 10.
Qed.
